(** * Events API: the ORM handlers (src/app.py) and the raw-SQL handlers
    (src/mysql_raw/app_mysql.py) over one model of the [events] table.

    The two Flask applications are embedded as programs of a small monad
    that threads the database, the ORM session, the DB-API cursor and a log
    of the calls made to the storage layer, and that has Python's two
    non-local exits: [return] and [raise].

    Scope of the embedding.
    - A request body is what [request.get_json()] hands to the view: [None]
      (the JSON document [null]) or a JSON object whose values are strings
      or [null] (the spec's "mapping of string keys to values, or absence
      thereof"). Outside the model are: a body that is a JSON array,
      number, boolean or string; numbers, booleans and nested values as
      field values; and a body that [get_json] refuses (absent, malformed,
      or of another content type), for which it raises inside the view's
      [try].
    - Both variants work on one table, the one declared in
      src/models/events.py. The server enforces its column constraints on
      every write and aborts the statement when one is violated (strict SQL
      mode, the server's default); the length of a string is its number of
      bytes.
    - A request runs alone, on a connection and a session of its own, which
      are dropped when the view returns (spec, section 5).
    - What the libraries decide (date parsing and rendering, the server's
      reading of a string bound to a DATETIME column, the text of an
      exception) is a parameter, class [Platform]. *)

From Stdlib Require Import Ascii.
From stdpp Require Import base gmap strings list.

Set Warnings "-register-all".
#[local] Open Scope string_scope.
#[local] Open Scope Z_scope.

(** ** Python values and JSON *)

(** Exceptions the handlers can meet. [ObjectDeletedError] is the ORM's,
    the last three are the database driver's. *)
Inductive exn :=
| KeyError | TypeError | ValueError | AttributeError
| ObjectDeletedError | IntegrityError | DataError | OperationalError.

(** A value of a request field after JSON decoding: [None] or a [str]. *)
Inductive pyval := PNone | PStr (s : string).

(** JSON documents, as [jsonify] sends them. *)
Inductive jval :=
| JNull
| JStr (s : string)
| JInt (n : Z)
| JArr (l : list jval)
| JObj (o : gmap string jval).

(** A view returns [jsonify(payload), status]. *)
Definition response : Type := jval * Z.

Definition jsonify (o : gmap string jval) : jval := JObj o.

Definition to_json (v : pyval) : jval :=
  match v with PNone => JNull | PStr s => JStr s end.

#[global] Instance exn_eq_dec : EqDecision exn.
Proof. solve_decision. Defined.

#[global] Instance pyval_eq_dec : EqDecision pyval.
Proof. solve_decision. Defined.

(** [request.get_json()]: [None], or a dict. *)
Definition body : Type := option (gmap string pyval).

(** [not data]: [None] and the empty dict are falsy. *)
Definition py_not (data : body) : bool :=
  match data with
  | None => true
  | Some d => bool_decide (d = ∅)
  end.

(** [key in data]. The views only reach it once [not data] has been ruled
    out, so [data] is a dict. *)
Definition py_in (key : string) (data : body) : bool :=
  match data with
  | None => false
  | Some d => bool_decide (is_Some (d !! key))
  end.

(** [data.get(key, default)]. *)
Definition dict_get (data : body) (key : string) (default : pyval) : pyval :=
  match data with
  | None => default
  | Some d => match d !! key with Some v => v | None => default end
  end.

(** How a block of statements ends: it falls through with a value, it
    executes [return], or it raises. *)
Inductive outcome (A : Type) :=
| Normal (a : A)
| Returned (r : response)
| Raised (e : exn).
Arguments Normal {A} a.
Arguments Returned {A} r.
Arguments Raised {A} e.

(** ** The platform: what the libraries and the server decide *)

Class Platform := {
  (** Python's [datetime] objects, which are also the DATETIME column values. *)
  datetime : Type;
  datetime_eq_dec :: EqDecision datetime;
  (** [datetime.strptime(s, '%Y-%m-%d %H:%M:%S')]; [None] is [ValueError]. *)
  strptime : string → option datetime;
  (** [d.strftime('%Y-%m-%d %H:%M:%S')]. *)
  strftime : datetime → string;
  (** The server's reading of a string bound to a DATETIME column; [None]
      when it rejects the value. *)
  sql_datetime : string → option datetime;
  (** How [jsonify] renders a [datetime] object that is left in a payload. *)
  json_datetime : datetime → string;
  (** [str(e)] of a caught exception. *)
  str_exc : exn → string
}.

(** ** The [events] table (src/models/events.py) *)

Section Model.
Context {P : Platform}.

(** An [Event] instance, which is also a row of the table. [id] is [None]
    on an instance that was never flushed; on a stored row it is the key. *)
Record Event := mkEvent {
  id : option Z;
  title : pyval;
  description : pyval;
  event_date : option datetime;
  location : pyval;
  created_at : option datetime
}.

#[global] Instance Event_eq_dec : EqDecision Event.
Proof. solve_decision. Defined.

(** [Event.to_dict]. *)
Definition to_dict (self : Event) : gmap string jval :=
  {[ "id" := match id self with Some k => JInt k | None => JNull end;
     "title" := to_json (title self);
     "description" := to_json (description self);
     "event_date" :=
       match event_date self with Some d => JStr (strftime d) | None => JNull end;
     "location" := to_json (location self);
     "created_at" :=
       match created_at self with Some d => JStr (strftime d) | None => JNull end ]}.

(** The stored state: the rows by primary key, the auto-increment counter
    and the server clock that [current_timestamp()] reads. *)
Record DB := mkDB {
  rows : gmap Z Event;
  next_id : Z;
  current_timestamp : datetime
}.

Definition empty_db (now : datetime) : DB :=
  {| rows := ∅; next_id := 1; current_timestamp := now |}.

(** [nullable=False] on [title], [event_date] and [location]. *)
Definition not_null (e : Event) : bool :=
  match title e, event_date e, location e with
  | PStr _, Some _, PStr _ => true
  | _, _, _ => false
  end.

(** [db.String(255)] on [title] and [location]. *)
Definition fits_255 (v : pyval) : bool :=
  match v with
  | PNone => true
  | PStr s => bool_decide (Z.of_nat (String.length s) ≤ 255)
  end.

Definition fits (e : Event) : bool := fits_255 (title e) && fits_255 (location e).

(** The server's verdict on the column values of a row it is asked to write. *)
Definition check_row (e : Event) : option exn :=
  if negb (not_null e) then Some IntegrityError
  else if negb (fits e) then Some DataError
  else None.

(** SELECT ... WHERE id = k. The [id] column of the result is the key the
    row is stored under. *)
Definition with_id (k : Z) (e : Event) : Event :=
  {| id := Some k; title := title e; description := description e;
     event_date := event_date e; location := location e; created_at := created_at e |}.

Definition db_select (k : Z) (d : DB) : option Event :=
  with_id k <$> rows d !! k.

(** SELECT * FROM events. *)
Definition db_select_all (d : DB) : list Event :=
  (λ kv, with_id kv.1 kv.2) <$> map_to_list (rows d).

(** Modelled from the spec: the definition of the table that the raw
    variant writes to is not among the sources. By the spec (sections 3 and
    6) it is the same [events] table, whose [created_at] is "set once at
    creation, server-generated", which is also what the [default] of the
    ORM model asks the server for. *)
Definition default_created_at (d : DB) : option datetime :=
  Some (current_timestamp d).

(** INSERT: the row gets the next key and the server's timestamp. *)
Definition new_row (e : Event) (d : DB) : Event :=
  {| id := Some (next_id d); title := title e; description := description e;
     event_date := event_date e; location := location e;
     created_at := default_created_at d |}.

Definition db_insert (e : Event) (d : DB) : exn + (Z * DB) :=
  match check_row e with
  | Some err => inl err
  | None =>
      let k := next_id d in
      inr (k, {| rows := <[k := new_row e d]> (rows d); next_id := k + 1;
                 current_timestamp := current_timestamp d |})
  end.

(** UPDATE ... WHERE id = k, setting the four payload columns. The count is
    of the rows the statement changed: 0 when no row has the key and when
    the row already holds the new values. *)
Definition set_columns (e old : Event) : Event :=
  {| id := id old; title := title e; description := description e;
     event_date := event_date e; location := location e;
     created_at := created_at old |}.

Definition db_update (k : Z) (e : Event) (d : DB) : exn + (Z * DB) :=
  match rows d !! k with
  | None => inr (0, d)
  | Some old =>
      let row := set_columns e old in
      match check_row row with
      | Some err => inl err
      | None =>
          if bool_decide (row = old) then inr (0, d)
          else inr (1, {| rows := <[k := row]> (rows d); next_id := next_id d;
                          current_timestamp := current_timestamp d |})
      end
  end.

(** DELETE ... WHERE id = k. *)
Definition db_delete (k : Z) (d : DB) : Z * DB :=
  match rows d !! k with
  | None => (0, d)
  | Some _ => (1, {| rows := delete k (rows d); next_id := next_id d;
                     current_timestamp := current_timestamp d |})
  end.

(** ** The world a view runs in *)

(** Calls that reach the storage layer, in the order they are made. *)
Inductive stmt := SELECT | INSERT | UPDATE | DELETE.
Inductive call := Cursor | Exec (s : stmt) | Commit | Rollback | Close.

(** The state of an ORM instance in the session. [Expired] is a persistent
    instance whose attributes are reloaded on the next access. *)
Inductive objstate := Transient | Pending | Persistent | Expired | Deleted | Detached.

(** A row as the [DictCursor] returns it: a row of [events], or the one
    column of the [SELECT EXISTS (...) AS event_to_delete] query. *)
Inductive dictrow := EventRow (e : Event) | ExistsRow (event_to_delete : Z).

Record cursor := mkCursor {
  fetched : list dictrow;
  rowcount : Z;
  lastrowid : Z
}.

(** [committed] is what is stored; [working] is what the open transaction
    sees; [session] holds the ORM instances, addressed by position. *)
Record world := mkWorld {
  committed : DB;
  working : DB;
  session : list (objstate * Event);
  cur : cursor;
  log : list call
}.

Definition new_cursor : cursor := {| fetched := []; rowcount := -1; lastrowid := 0 |}.

(** A request starts on the stored state with an empty session. *)
Definition fresh (d : DB) : world :=
  {| committed := d; working := d; session := []; cur := new_cursor; log := [] |}.

Definition set_working (d : DB) (w : world) : world :=
  {| committed := committed w; working := d; session := session w;
     cur := cur w; log := log w |}.
Definition set_committed (d : DB) (w : world) : world :=
  {| committed := d; working := working w; session := session w;
     cur := cur w; log := log w |}.
Definition set_session (s : list (objstate * Event)) (w : world) : world :=
  {| committed := committed w; working := working w; session := s;
     cur := cur w; log := log w |}.
Definition set_cur (c : cursor) (w : world) : world :=
  {| committed := committed w; working := working w; session := session w;
     cur := c; log := log w |}.
Definition add_log (c : call) (w : world) : world :=
  {| committed := committed w; working := working w; session := session w;
     cur := cur w; log := log w ++ [c] |}.

Definition M (A : Type) : Type := world → outcome A * world.

#[global] Instance M_ret : MRet M := λ A a w, (Normal a, w).
#[global] Instance M_bind : MBind M := λ A B f m w,
  match m w with
  | (Normal a, w') => f a w'
  | (Returned r, w') => (Returned r, w')
  | (Raised e, w') => (Raised e, w')
  end.

Definition return_ {A} (r : response) : M A := λ w, (Returned r, w).
Definition raise {A} (e : exn) : M A := λ w, (Raised e, w).
Definition gets {A} (f : world → A) : M A := λ w, (Normal (f w), w).
Definition modify (f : world → world) : M unit := λ w, (Normal (), f w).
Definition emit (c : call) : M unit := modify (add_log c).

(** [if c: block]. *)
Definition when (c : bool) (block : M unit) : M unit :=
  if c then block else mret ().

(** [try: block except Exception as e: handler]. *)
Definition try_except {A} (block : M A) (handler : exn → M A) : M A := λ w,
  match block w with
  | (Raised e, w') => handler e w'
  | r => r
  end.

(** [try: block except ValueError: handler]. *)
Definition try_except_ValueError {A} (block : M A) (handler : M A) : M A := λ w,
  match block w with
  | (Raised ValueError, w') => handler w'
  | r => r
  end.

(** What the framework gets from a view. Every view below ends each path
    with [return]; the other two cases are there to keep [run] total. *)
Inductive result :=
| Reply (r : response)
| ReturnsNone
| Uncaught (e : exn).

(** One request: the view runs on a fresh connection and session; what is
    left of an open transaction at the end is dropped with them. The result
    is the reply, the stored state afterwards and the storage calls made. *)
Definition run (view : M unit) (d : DB) : result * DB * list call :=
  let '(o, w) := view (fresh d) in
  (match o with
   | Normal _ => ReturnsNone
   | Returned r => Reply r
   | Raised e => Uncaught e
   end, committed w, log w).

(** [data[key]]. *)
Definition getitem (data : body) (key : string) : M pyval :=
  match data with
  | None => raise TypeError
  | Some d => match d !! key with Some v => mret v | None => raise KeyError end
  end.

(** [datetime.strptime(v, '%Y-%m-%d %H:%M:%S')]: a [TypeError] unless [v]
    is a [str], a [ValueError] when it does not match. *)
Definition py_strptime (v : pyval) : M datetime :=
  match v with
  | PNone => raise TypeError
  | PStr s => match strptime s with Some d => mret d | None => raise ValueError end
  end.

(** [v.strftime('%Y-%m-%d %H:%M:%S')] on a column value that may be [None]. *)
Definition py_strftime (v : option datetime) : M pyval :=
  match v with
  | None => raise AttributeError
  | Some d => mret (PStr (strftime d))
  end.

(** ** The ORM session (what src/app.py uses of [db.session])

    The session is the library's default one: a commit flushes what is
    pending and expires the instances, and an expired instance is reloaded
    when an attribute is read. *)

Definition allocate (st : objstate) (e : Event) : M nat := λ w,
  (Normal (length (session w)), set_session (session w ++ [(st, e)]) w).

(** [Event(title=..., description=..., event_date=..., location=...)]: a
    transient instance. *)
Definition transient (title description : pyval) (event_date : option datetime)
    (location : pyval) : Event :=
  {| id := None; title := title; description := description;
     event_date := event_date; location := location; created_at := None |}.

Definition Event_ (title description : pyval) (event_date : option datetime)
    (location : pyval) : M nat :=
  allocate Transient (transient title description event_date location).

Definition set_title (v : pyval) (e : Event) : Event :=
  {| id := id e; title := v; description := description e;
     event_date := event_date e; location := location e; created_at := created_at e |}.
Definition set_description (v : pyval) (e : Event) : Event :=
  {| id := id e; title := title e; description := v;
     event_date := event_date e; location := location e; created_at := created_at e |}.
Definition set_event_date (v : option datetime) (e : Event) : Event :=
  {| id := id e; title := title e; description := description e;
     event_date := v; location := location e; created_at := created_at e |}.
Definition set_location (v : pyval) (e : Event) : Event :=
  {| id := id e; title := title e; description := description e;
     event_date := event_date e; location := v; created_at := created_at e |}.

(** [obj.attr = v] on the instance at position [r]. *)
Definition setattr (r : nat) (f : Event → Event) : M unit :=
  modify (λ w, set_session (alter (λ o, (o.1, f o.2)) r (session w)) w).

Definition set_state (r : nat) (st : objstate) : M unit :=
  modify (λ w, set_session (alter (λ o, (st, o.2)) r (session w)) w).

(** [Event.query.get(k)]: a SELECT by primary key. *)
Definition query_get (k : Z) : M (option nat) :=
  emit (Exec SELECT);;
  d ← gets working;
  match db_select k d with
  | Some row => r ← allocate Persistent row; mret (Some r)
  | None => mret None
  end.

(** [db.session.add(obj)] and [db.session.delete(obj)]. *)
Definition session_add (r : nat) : M unit := set_state r Pending.
Definition session_delete (r : nat) : M unit := set_state r Deleted.

(** The flush of one instance: a pending one is inserted, a persistent one
    whose attributes differ from its row is updated, one marked deleted is
    deleted. *)
Definition flush_one (o : objstate * Event) : M (objstate * Event) :=
  match o.1 with
  | Pending =>
      emit (Exec INSERT);;
      d ← gets working;
      match db_insert o.2 d with
      | inl err => raise err
      | inr (k, d') => modify (set_working d');; mret (Persistent, with_id k o.2)
      end
  | Persistent =>
      match id o.2 with
      | None => mret o
      | Some k =>
          d ← gets working;
          match db_select k d with
          | None => mret o
          | Some old =>
              if bool_decide (o.2 = old) then mret o
              else
                emit (Exec UPDATE);;
                match db_update k o.2 d with
                | inl err => raise err
                | inr (_, d') => modify (set_working d');; mret o
                end
          end
      end
  | Deleted =>
      match id o.2 with
      | None => mret o
      | Some k =>
          emit (Exec DELETE);;
          d ← gets working;
          modify (set_working (db_delete k d).2);;
          mret (Detached, o.2)
      end
  | _ => mret o
  end.

Fixpoint flush (objs : list (objstate * Event)) : M (list (objstate * Event)) :=
  match objs with
  | [] => mret []
  | o :: rest => o' ← flush_one o; rest' ← flush rest; mret (o' :: rest')
  end.

(** A transaction's end expires what the session holds. *)
Definition expire (o : objstate * Event) : objstate * Event :=
  match o.1 with
  | Persistent => (Expired, o.2)
  | _ => o
  end.

(** [db.session.commit()]: flush, COMMIT, expire. *)
Definition session_commit : M unit :=
  objs ← gets session;
  objs' ← flush objs;
  modify (set_session (expire <$> objs'));;
  emit Commit;;
  modify (λ w, set_committed (working w) w).

Definition expunge (o : objstate * Event) : objstate * Event :=
  match o.1 with
  | Pending => (Transient, o.2)
  | Persistent | Deleted => (Expired, o.2)
  | _ => o
  end.

(** [db.session.rollback()]. *)
Definition session_rollback : M unit :=
  emit Rollback;;
  modify (λ w, set_working (committed w) w);;
  modify (λ w, set_session (expunge <$> session w) w).

(** Reading an attribute of the instance at [r]: an expired instance is
    first reloaded by primary key. *)
Definition load (r : nat) : M Event :=
  objs ← gets session;
  match objs !! r with
  | None => raise AttributeError
  | Some (Expired, e) =>
      emit (Exec SELECT);;
      d ← gets working;
      match id e ≫= (λ k, db_select k d) with
      | Some row => modify (set_session (<[r := (Persistent, row)]> objs));; mret row
      | None => raise ObjectDeletedError
      end
  | Some (_, e) => mret e
  end.

(** ** The DB-API cursor (what src/mysql_raw/app_mysql.py uses of [mysql]) *)

(** The statements of app_mysql.py with their bound parameters. *)
Inductive sql :=
| INSERT_INTO_events (title description event_date location : pyval)
| SELECT_FROM_events
| SELECT_FROM_events_WHERE_id (k : Z)
| SELECT_EXISTS (k : Z)
| UPDATE_events (title description event_date location : pyval) (k : Z)
| DELETE_FROM_events_WHERE_id (k : Z).

(** A Python value bound to the DATETIME column. *)
Definition bind_datetime (v : pyval) : exn + option datetime :=
  match v with
  | PNone => inr None
  | PStr s =>
      match sql_datetime s with
      | Some d => inr (Some d)
      | None => inl OperationalError
      end
  end.

(** The column values an INSERT or UPDATE statement carries. *)
Definition bind_row (title description event_date location : pyval) : exn + Event :=
  match bind_datetime event_date with
  | inl err => inl err
  | inr d => inr (transient title description d location)
  end.

(** [mysql.connection.cursor()] and [cursor.close()]. *)
Definition connection_cursor : M unit :=
  emit Cursor;; modify (set_cur new_cursor).
Definition cursor_close : M unit := emit Close.

(** [cursor.execute(query, params)]. *)
Definition cursor_execute (q : sql) : M unit :=
  match q with
  | INSERT_INTO_events t ds ed l =>
      emit (Exec INSERT);;
      d ← gets working;
      match bind_row t ds ed l with
      | inl err => raise err
      | inr e =>
          match db_insert e d with
          | inl err => raise err
          | inr (k, d') =>
              modify (set_working d');;
              modify (set_cur {| fetched := []; rowcount := 1; lastrowid := k |})
          end
      end
  | SELECT_FROM_events =>
      emit (Exec SELECT);;
      d ← gets working;
      let found := EventRow <$> db_select_all d in
      modify (set_cur {| fetched := found; rowcount := Z.of_nat (length found);
                         lastrowid := 0 |})
  | SELECT_FROM_events_WHERE_id k =>
      emit (Exec SELECT);;
      d ← gets working;
      let found := match db_select k d with Some e => [EventRow e] | None => [] end in
      modify (set_cur {| fetched := found; rowcount := Z.of_nat (length found);
                         lastrowid := 0 |})
  | SELECT_EXISTS k =>
      emit (Exec SELECT);;
      d ← gets working;
      let found := [ExistsRow (match rows d !! k with Some _ => 1 | None => 0 end)] in
      modify (set_cur {| fetched := found; rowcount := 1; lastrowid := 0 |})
  | UPDATE_events t ds ed l k =>
      emit (Exec UPDATE);;
      d ← gets working;
      match bind_row t ds ed l with
      | inl err => raise err
      | inr e =>
          match db_update k e d with
          | inl err => raise err
          | inr (n, d') =>
              modify (set_working d');;
              modify (set_cur {| fetched := []; rowcount := n; lastrowid := 0 |})
          end
      end
  | DELETE_FROM_events_WHERE_id k =>
      emit (Exec DELETE);;
      d ← gets working;
      modify (set_working (db_delete k d).2);;
      modify (set_cur {| fetched := []; rowcount := (db_delete k d).1; lastrowid := 0 |})
  end.

(** [cursor.fetchone()]. *)
Definition cursor_fetchone : M (option dictrow) :=
  c ← gets cur;
  match fetched c with
  | [] => mret None
  | r :: rest =>
      modify (set_cur {| fetched := rest; rowcount := rowcount c; lastrowid := lastrowid c |});;
      mret (Some r)
  end.

(** [cursor.fetchall()]. *)
Definition cursor_fetchall : M (list dictrow) :=
  c ← gets cur;
  modify (set_cur {| fetched := []; rowcount := rowcount c; lastrowid := lastrowid c |});;
  mret (fetched c).

(** [mysql.connection.commit()] (also reached as [cursor.connection.commit()])
    and [mysql.connection.rollback()]. *)
Definition connection_commit : M unit :=
  emit Commit;; modify (λ w, set_committed (working w) w).
Definition connection_rollback : M unit :=
  emit Rollback;; modify (λ w, set_working (committed w) w).

(** Truth value of what a lookup returned: [None] is falsy, an instance or
    a row is truthy. *)
Definition truthy {A} (o : option A) : bool :=
  match o with Some _ => true | None => false end.

(** [row['col']] on what [fetchone] returned. *)
Definition getcol {A} (row : option dictrow) (col : Event → A) : M A :=
  match row with
  | None => raise TypeError
  | Some (EventRow e) => mret (col e)
  | Some (ExistsRow _) => raise KeyError
  end.

(** [result_dict.get('event_to_delete')]. *)
Definition get_event_to_delete (row : option dictrow) : M Z :=
  match row with
  | None => raise AttributeError
  | Some (ExistsRow n) => mret n
  | Some (EventRow _) => raise KeyError
  end.

(** A row of [events] as [jsonify] sends it from the [DictCursor]'s dict. *)
Definition row_dict (e : Event) : gmap string jval :=
  {[ "id" := match id e with Some k => JInt k | None => JNull end;
     "title" := to_json (title e);
     "description" := to_json (description e);
     "event_date" :=
       match event_date e with Some d => JStr (json_datetime d) | None => JNull end;
     "location" := to_json (location e);
     "created_at" :=
       match created_at e with Some d => JStr (json_datetime d) | None => JNull end ]}.

Definition row_json (e : Event) : jval := JObj (row_dict e).

Definition dictrow_json (r : dictrow) : jval :=
  match r with
  | EventRow e => row_json e
  | ExistsRow n => JObj {[ "event_to_delete" := JInt n ]}
  end.

End Model.

(** ** src/app.py: the views of the ORM variant *)

Module ORM.
Section Views.
Context {P : Platform}.

Definition required_fields : list string :=
  ["title"; "description"; "event_date"; "location"].

(** [obj.attr] and [obj.to_dict()]. *)
Definition getattr {A} (r : nat) (attr : Event → A) : M A :=
  e ← load r; mret (attr e).
Definition call_to_dict (r : nat) : M (gmap string jval) :=
  e ← load r; mret (to_dict e).

Definition json_id (k : option Z) : jval :=
  match k with Some n => JInt n | None => JNull end.

Definition internal_error (e : exn) : response :=
  (jsonify {[ "error" := JStr ("An error occured: " +:+ str_exc e) ]}, 500).

(** POST /events *)
Definition create_event (data : body) : M unit :=
  try_except
    (when (py_not data)
       (return_ (jsonify {[ "error" := JStr "Invalid JSON or no data provided" ]}, 400));;
     when (negb (forallb (λ field, py_in field data) required_fields))
       (return_ (jsonify {[ "error" := JStr ("Missing required fields: " +:+
           String.concat ", "
             (List.filter (λ f, negb (py_in f data)) required_fields)) ]}, 400));;
     event_date ←
       try_except_ValueError
         (v ← getitem data "event_date"; py_strptime v)
         (return_ (jsonify {[ "error" :=
            JStr "Invalid event_date format. Use YYYY-MM-DD HH:MM:SS" ]}, 400));
     title ← getitem data "title";
     description ← getitem data "description";
     location ← getitem data "location";
     new_event ← Event_ title description (Some event_date) location;
     session_add new_event;;
     session_commit;;
     event_id ← getattr new_event id;
     event ← call_to_dict new_event;
     return_ (jsonify {[ "message" := JStr "Event created successfully";
                         "event_id" := json_id event_id;
                         "event" := JObj event ]}, 201))
    (λ e, session_rollback;; return_ (internal_error e)).

(** [Event.query.all()]. *)
Definition query_all : M (list nat) :=
  emit (Exec SELECT);;
  d ← gets working;
  mapM (allocate Persistent) (db_select_all d).

(** GET /events *)
Definition get_all_events : M unit :=
  try_except
    (events ← query_all;
     events_data ← mapM call_to_dict events;
     return_ (jsonify {[ "events" := JArr (JObj <$> events_data) ]}, 200))
    (λ e, return_ (internal_error e)).

(** GET /events/<event_id> *)
Definition get_single_event (event_id : Z) : M unit :=
  try_except
    (event ← query_get event_id;
     match event with
     | Some event =>
         d ← call_to_dict event;
         return_ (jsonify {[ "event" := JObj d ]}, 200)
     | None => return_ (jsonify {[ "message" := JStr "Event not found" ]}, 404)
     end)
    (λ e, return_ (internal_error e)).

(** PUT /events/<event_id> *)
Definition update_event (event_id : Z) (data : body) : M unit :=
  try_except
    (event ← query_get event_id;
     match event with
     | None => return_ (jsonify {[ "message" := JStr "Event not found" ]}, 404)
     | Some event =>
         when (py_not data)
           (return_ (jsonify {[ "error" := JStr "Invalid JSON or no data provided" ]}, 400));;
         when (py_in "title" data)
           (v ← getitem data "title"; setattr event (set_title v));;
         when (py_in "description" data)
           (v ← getitem data "description"; setattr event (set_description v));;
         when (py_in "event_date" data)
           (try_except_ValueError
              (v ← getitem data "event_date";
               d ← py_strptime v;
               setattr event (set_event_date (Some d)))
              (return_ (jsonify {[ "error" :=
                 JStr "Invalid event_date format. Use YYYY-MM-DD HH:MM:SS" ]}, 400)));;
         when (py_in "location" data)
           (v ← getitem data "location"; setattr event (set_location v));;
         session_commit;;
         eid ← getattr event id;
         updated ← call_to_dict event;
         return_ (jsonify {[ "message" := JStr "Event updated successfully";
                             "event_id" := json_id eid;
                             "updated_event" := JObj updated ]}, 200)
     end)
    (λ e, session_rollback;; return_ (internal_error e)).

(** DELETE /events/<event_id> *)
Definition delete_event (event_id : Z) : M unit :=
  try_except
    (event_to_delete ← query_get event_id;
     match event_to_delete with
     | None => return_ (jsonify {[ "message" := JStr "event_to_delete" ]}, 400)
     | Some event_to_delete =>
         session_delete event_to_delete;;
         session_commit;;
         return_ (jsonify {[ "message" := JStr "Event deleted successfully" ]}, 200)
     end)
    (λ e, session_rollback;; return_ (internal_error e)).

End Views.
End ORM.

(** ** src/mysql_raw/app_mysql.py: the views of the raw-SQL variant *)

Module Raw.
Section Views.
Context {P : Platform}.

Definition internal_error (e : exn) : response :=
  (jsonify {[ "error" := JStr ("An error occured: " +:+ str_exc e) ]}, 500).

(** POST /events *)
Definition create_event (data : body) : M unit :=
  try_except
    (when (py_not data)
       (return_ (jsonify {[ "error" := JStr "Invalid JSON or no data provided" ]}, 400));;
     when (negb (forallb (λ key, py_in key data)
                   ["title"; "description"; "event_date"; "location"]))
       (return_ (jsonify {[ "error" :=
          JStr "Missing required event fields (title, description, event_date, location)" ]},
          400));;
     let title := dict_get data "title" PNone in
     let description := dict_get data "description" PNone in
     let event_date := dict_get data "event_date" PNone in
     let location := dict_get data "location" PNone in
     connection_cursor;;
     cursor_execute (INSERT_INTO_events title description event_date location);;
     connection_commit;;
     new_event_id ← gets (λ w, lastrowid (cur w));
     cursor_close;;
     return_ (jsonify {[ "message" := JStr "Event created successfully";
                         "event_id" := JInt new_event_id;
                         "event" := JObj {[ "title" := to_json title;
                                            "description" := to_json description;
                                            "event_date" := to_json event_date;
                                            "location" := to_json location ]} ]}, 201))
    (λ e, connection_rollback;; return_ (internal_error e)).

(** GET /events *)
Definition get_all_events : M unit :=
  try_except
    (connection_cursor;;
     cursor_execute SELECT_FROM_events;;
     events ← cursor_fetchall;
     cursor_close;;
     return_ (jsonify {[ "events" := JArr (dictrow_json <$> events) ]}, 200))
    (λ e, return_ (internal_error e)).

(** GET /events/<event_id> *)
Definition get_single_event (event_id : Z) : M unit :=
  try_except
    (connection_cursor;;
     cursor_execute (SELECT_FROM_events_WHERE_id event_id);;
     event ← cursor_fetchone;
     cursor_close;;
     match event with
     | None => return_ (jsonify {[ "message" := JStr "Event not found" ]}, 404)
     | Some event => return_ (jsonify {[ "event" := dictrow_json event ]}, 200)
     end)
    (λ e, return_ (internal_error e)).

(** PUT /events/<event_id> *)
Definition update_event (event_id : Z) (data : body) : M unit :=
  try_except
    (connection_cursor;;
     cursor_execute (SELECT_FROM_events_WHERE_id event_id);;
     event_to_update ← cursor_fetchone;
     when (negb (truthy event_to_update))
       (cursor_close;;
        return_ (jsonify {[ "message" := JStr "Event not found" ]}, 404));;
     when (py_not data)
       (cursor_close;;
        return_ (jsonify {[ "error" := JStr "Invalid JSON or data not provided" ]}, 400));;
     old_title ← getcol event_to_update title;
     let title := dict_get data "title" old_title in
     old_description ← getcol event_to_update description;
     let description := dict_get data "description" old_description in
     old_event_date ← getcol event_to_update event_date;
     old_event_date ← py_strftime old_event_date;
     let event_date := dict_get data "event_date" old_event_date in
     old_location ← getcol event_to_update location;
     let location := dict_get data "location" old_location in
     cursor_execute (UPDATE_events title description event_date location event_id);;
     connection_commit;;
     n ← gets (λ w, rowcount (cur w));
     when (n =? 0)
       (return_ (jsonify {[ "message" :=
          JStr "No changes made to event or event not found after initial check" ]}, 200));;
     cursor_close;;
     return_ (jsonify {[ "message" := JStr "Event updated successfully";
                         "event_id" := JInt event_id;
                         "updated_event" := JObj {[ "title" := to_json title;
                                                    "description" := to_json description;
                                                    "event_date" := to_json event_date;
                                                    "location" := to_json location ]} ]}, 200))
    (λ e, connection_rollback;; return_ (internal_error e)).

(** DELETE /events/<event_id> *)
Definition delete_event (event_id : Z) : M unit :=
  try_except
    (connection_cursor;;
     cursor_execute (SELECT_EXISTS event_id);;
     result_dict ← cursor_fetchone;
     event_to_delete ← get_event_to_delete result_dict;
     when (event_to_delete =? 0)
       (cursor_close;;
        return_ (jsonify {[ "message" := JStr "Event not found" ]}, 404));;
     cursor_execute (DELETE_FROM_events_WHERE_id event_id);;
     connection_commit;;
     cursor_close;;
     return_ (jsonify {[ "message" := JStr "Event deleted successfully" ]}, 200))
    (λ e, connection_rollback;; return_ (internal_error e)).

End Views.
End Raw.

(** ** The requests of the API and a reference platform *)

Inductive request :=
| POST_events (data : body)
| GET_events
| GET_event (event_id : Z)
| PUT_event (event_id : Z) (data : body)
| DELETE_event (event_id : Z).

Inductive variant := Orm | RawSql.

Section Dispatch.
Context {P : Platform}.

(** The routing table of either application. *)
Definition view (v : variant) (r : request) : M unit :=
  match v, r with
  | Orm, POST_events data => ORM.create_event data
  | Orm, GET_events => ORM.get_all_events
  | Orm, GET_event k => ORM.get_single_event k
  | Orm, PUT_event k data => ORM.update_event k data
  | Orm, DELETE_event k => ORM.delete_event k
  | RawSql, POST_events data => Raw.create_event data
  | RawSql, GET_events => Raw.get_all_events
  | RawSql, GET_event k => Raw.get_single_event k
  | RawSql, PUT_event k data => Raw.update_event k data
  | RawSql, DELETE_event k => Raw.delete_event k
  end.

Definition reply_of (x : result * DB * list call) : result := x.1.1.
Definition state_of (x : result * DB * list call) : DB := x.1.2.
Definition calls_of (x : result * DB * list call) : list call := x.2.

(** The HTTP status of a reply; 0 when the view gave none. *)
Definition status_of (x : result * DB * list call) : Z :=
  match reply_of x with
  | Reply (_, code) => code
  | _ => 0
  end.

(** The JSON object of a reply. *)
Definition payload_of (x : result * DB * list call) : gmap string jval :=
  match reply_of x with
  | Reply (JObj o, _) => o
  | _ => ∅
  end.

End Dispatch.

(** ** Vocabulary of the statements *)

Section Vocabulary.
Context {P : Platform}.

(** The replies the views build. *)
Definition error_reply (msg : string) (code : Z) : result :=
  Reply (jsonify {[ "error" := JStr msg ]}, code).
Definition message_reply (msg : string) (code : Z) : result :=
  Reply (jsonify {[ "message" := JStr msg ]}, code).

(** The 201 of a create and the 200 of an update, around a record. *)
Definition created_reply (k : Z) (record : gmap string jval) : result :=
  Reply (jsonify {[ "message" := JStr "Event created successfully";
                    "event_id" := JInt k;
                    "event" := JObj record ]}, 201).

Definition updated_reply (k : Z) (record : gmap string jval) : result :=
  Reply (jsonify {[ "message" := JStr "Event updated successfully";
                    "event_id" := JInt k;
                    "updated_event" := JObj record ]}, 200).

(** The message of the raw variant when its UPDATE changed no row. *)
Definition no_change : string :=
  "No changes made to event or event not found after initial check".

(** The payload columns of a request as the raw variant echoes them. *)
Definition echo (title description event_date location : pyval) : gmap string jval :=
  {[ "title" := to_json title; "description" := to_json description;
     "event_date" := to_json event_date; "location" := to_json location ]}.

(** [if key in data: event.attr = data[key]]. *)
Definition assign (data : body) (key : string) (set : pyval → Event → Event)
    (e : Event) : Event :=
  if py_in key data then set (dict_get data key PNone) e else e.

(** The [event_date] branch of the ORM update. *)
Definition assign_date (data : body) (e : Event) : exn + Event :=
  if py_in "event_date" data then
    match dict_get data "event_date" PNone with
    | PNone => inl TypeError
    | PStr s =>
        match strptime s with
        | Some dt => inr (set_event_date (Some dt) e)
        | None => inl ValueError
        end
    end
  else inr e.

(** [needle in hay] on strings. *)
Fixpoint contains (hay needle : string) : bool :=
  String.prefix needle hay ||
  match hay with
  | EmptyString => false
  | String _ rest => contains rest needle
  end.

(** The text under the [error] key of a reply. *)
Definition error_text (x : result * DB * list call) : string :=
  match payload_of x !! "error" with
  | Some (JStr msg) => msg
  | _ => ""
  end.

(** The event record of a reply: what stands under [event] or under
    [updated_event]. *)
Definition record_of (x : result * DB * list call) : option (gmap string jval) :=
  match payload_of x !! "event", payload_of x !! "updated_event" with
  | Some (JObj r), _ => Some r
  | _, Some (JObj r) => Some r
  | _, _ => None
  end.

(** Storage calls that read rows and storage calls that change them. *)
Definition is_read (c : call) : bool :=
  match c with Exec SELECT => true | _ => false end.
Definition is_write (c : call) : bool :=
  match c with Exec INSERT | Exec UPDATE | Exec DELETE => true | _ => false end.

(** A column that the body of an update does not mention keeps its value. *)
Definition kept {A} (data : body) (key : string) (col : Event → A)
    (old new : Event) : Prop :=
  py_in key data = false → col new = col old.

Definition frame (data : body) (old new : Event) : Prop :=
  kept data "title" title old new ∧
  kept data "description" description old new ∧
  kept data "event_date" event_date old new ∧
  kept data "location" location old new ∧
  id new = id old ∧ created_at new = created_at old.



(** The server reads the canonical rendering of a stored date back as that
    date. *)
Definition reads_back (e : Event) : Prop :=
  ∀ d, event_date e = Some d → sql_datetime (strftime d) = Some d.


(** Every stored row satisfies [nullable=False]. *)
Definition constrained (db : DB) : Prop :=
  ∀ k e, rows db !! k = Some e → not_null e = true.

(** The stored states the API can reach from the empty table: by a request
    to either variant, and by the passing of time on the server. *)
Inductive reachable : DB → Prop :=
| reach_empty now : reachable (empty_db now)
| reach_request v r db : reachable db → reachable (state_of (run (view v r) db))
| reach_tick now db :
    reachable db →
    reachable {| rows := rows db; next_id := next_id db; current_timestamp := now |}.

End Vocabulary.

(** ** Further vocabulary: lists of events, sequences of requests *)

Section Coverage.
Context {P : Platform}.

(** The list under the [events] key of a reply. *)
Definition events_of (x : result * DB * list call) : list jval :=
  match payload_of x !! "events" with
  | Some (JArr l) => l
  | _ => []
  end.

(** The record of a row in the list of either variant. *)
Definition listed (v : variant) (row : Event) : jval :=
  match v with
  | Orm => JObj (to_dict row)
  | RawSql => row_json row
  end.

(** The [id] field of a record of such a list. *)
Definition record_id (j : jval) : option jval :=
  match j with
  | JObj o => o !! "id"
  | _ => None
  end.

(** The [event_id] of a reply. *)
Definition event_id_of (x : result * DB * list call) : option jval :=
  payload_of x !! "event_id".

(** What stands under the [message] key of a reply. *)
Definition message_of (r : result) : option jval :=
  match r with
  | Reply (JObj o, _) => o !! "message"
  | _ => None
  end.

(** Calls that end or undo a transaction. *)
Definition is_commit (c : call) : bool :=
  match c with Commit => true | _ => false end.
Definition is_rollback (c : call) : bool :=
  match c with Rollback => true | _ => false end.

(** The requests that ask for a change: POST, PUT and DELETE. *)
Definition mutating (r : request) : bool :=
  match r with
  | POST_events _ | PUT_event _ _ | DELETE_event _ => true
  | GET_events | GET_event _ => false
  end.

(** The statuses the views use. *)
Definition statuses : list Z := [200; 201; 400; 404; 500].

(** Every key of the table is below the auto-increment counter. *)
Definition keys_below (db : DB) : Prop :=
  ∀ k, is_Some (rows db !! k) → k < next_id db.

(** The stored state after a sequence of requests, each to one of the two
    variants. *)
Fixpoint run_all (l : list (variant * request)) (db : DB) : DB :=
  match l with
  | [] => db
  | (v, r) :: rest => run_all rest (state_of (run (view v r) db))
  end.

End Coverage.

(** A platform to run the views on concrete requests. Dates are civil
    date-times. [strptime] is Python's on the pattern of the views;
    [strftime] is the C library's, which does not pad the year;
    [sql_datetime] reads the server's date and date-time literals, a year
    of two digits among them; [json_datetime] writes the HTTP date of
    [jsonify]. Texts are ASCII. *)
Module Ref.
#[local] Open Scope nat_scope.

Record civil := mkCivil {
  year : nat; month : nat; day : nat;
  hour : nat; minute : nat; second : nat
}.

#[global] Instance civil_eq_dec : EqDecision civil.
Proof. solve_decision. Defined.

Definition digit (c : ascii) : option nat :=
  let n := nat_of_ascii c in
  if (48 <=? n) && (n <=? 57) then Some (n - 48) else None.

(** The longest run of digits at the head of a text, and what follows it. *)
Fixpoint digits (l : list ascii) : list nat * list ascii :=
  match l with
  | c :: r =>
      match digit c with
      | Some d => let '(ds, rest) := digits r in (d :: ds, rest)
      | None => ([], l)
      end
  | [] => ([], [])
  end.

Definition number (ds : list nat) : nat := fold_left (λ acc d, 10 * acc + d) ds 0.

(** A number written with at least [lo] and at most [hi] digits. *)
Definition field (lo hi : nat) (l : list ascii) : option (nat * list ascii) :=
  let '(ds, rest) := digits l in
  if (lo <=? length ds) && (length ds <=? hi) then Some (number ds, rest) else None.

(** One given character. *)
Definition lit (c : ascii) (l : list ascii) : option (list ascii) :=
  match l with
  | c' :: r => if Ascii.eqb c c' then Some r else None
  | [] => None
  end.

(** White space: what [\s] matches in Python's [re] and what the server
    skips, within ASCII. *)
Definition space (c : ascii) : bool :=
  let n := nat_of_ascii c in
  ((9 <=? n) && (n <=? 13)) || ((28 <=? n) && (n <=? 32)).

Fixpoint skip_spaces (l : list ascii) : list ascii :=
  match l with
  | c :: r => if space c then skip_spaces r else l
  | [] => []
  end.

(** One or more characters of white space. *)
Definition spaces (l : list ascii) : option (list ascii) :=
  match l with
  | c :: r => if space c then Some (skip_spaces r) else None
  | [] => None
  end.

Definition leap (y : nat) : bool :=
  ((y mod 4 =? 0) && negb (y mod 100 =? 0)) || (y mod 400 =? 0).

Definition days_in_month (y m : nat) : nat :=
  match m with
  | 2 => if leap y then 29 else 28
  | 4 | 6 | 9 | 11 => 30
  | _ => 31
  end.

Definition valid (d : civil) : bool :=
  (1 <=? year d) && (1 <=? month d) && (month d <=? 12) &&
  (1 <=? day d) && (day d <=? days_in_month (year d) (month d)) &&
  (hour d <? 24) && (minute d <? 60) && (second d <? 60).

Definition checked (d : civil) : option civil := if valid d then Some d else None.

(** [%d] of [strptime]: one or two digits, or a space and one digit. *)
Definition day_field (l : list ascii) : option (nat * list ascii) :=
  match l with
  | " "%char :: r => field 1 1 r
  | _ => field 1 2 l
  end.

(** [hh:mm:ss], each part of one or two digits, to the end of the text. *)
Definition parse_time (l : list ascii) : option (nat * nat * nat) :=
  '(h, l) ← field 1 2 l;
  l ← lit ":" l;
  '(mi, l) ← field 1 2 l;
  l ← lit ":" l;
  '(sec, l) ← field 1 2 l;
  match l with
  | [] => Some (h, mi, sec)
  | _ => None
  end.

(** [datetime.strptime(s, '%Y-%m-%d %H:%M:%S')]: a year of four digits,
    the other fields of one or two, white space where the pattern has its
    space, nothing after the seconds, and a date of the calendar. *)
Definition strptime (s : string) : option civil :=
  '(y, l) ← field 4 4 (String.list_ascii_of_string s);
  l ← lit "-" l;
  '(m, l) ← field 1 2 l;
  l ← lit "-" l;
  '(d, l) ← day_field l;
  l ← spaces l;
  '(h, mi, sec) ← parse_time l;
  checked (mkCivil y m d h mi sec).

(** The year of a date literal of the server: written with two digits it
    is read in 1970..2069, otherwise (up to four digits) as it stands. *)
Definition sql_year (l : list ascii) : option (nat * list ascii) :=
  let '(ds, rest) := digits l in
  match length ds with
  | 1 | 3 | 4 => Some (number ds, rest)
  | 2 => Some (if number ds <? 70 then 2000 + number ds else 1900 + number ds, rest)
  | _ => None
  end.

(** A string bound to a DATETIME column: [YYYY-MM-DD hh:mm:ss] or
    [YY-MM-DD hh:mm:ss], month, day and time parts of one or two digits,
    or the date alone, which is read as midnight. *)
Definition sql_datetime (s : string) : option civil :=
  '(y, l) ← sql_year (String.list_ascii_of_string s);
  l ← lit "-" l;
  '(m, l) ← field 1 2 l;
  l ← lit "-" l;
  '(d, l) ← field 1 2 l;
  match l with
  | [] => checked (mkCivil y m d 0 0 0)
  | _ =>
      l ← spaces l;
      '(h, mi, sec) ← parse_time l;
      checked (mkCivil y m d h mi sec)
  end.

Definition dec1 (n : nat) : ascii := ascii_of_nat (48 + n mod 10).
Definition dec2 (n : nat) : string :=
  String (dec1 (n / 10)) (String (dec1 n) "").
Definition dec4 (n : nat) : string := dec2 (n / 100) +:+ dec2 (n mod 100).

(** A number in decimal, without padding. *)
Fixpoint decimal_go (fuel n : nat) (acc : string) : string :=
  match fuel with
  | 0 => acc
  | S fuel =>
      if n <? 10 then String (dec1 n) acc
      else decimal_go fuel (n / 10) (String (dec1 n) acc)
  end.

Definition decimal (n : nat) : string := decimal_go (S n) n "".

(** [d.strftime('%Y-%m-%d %H:%M:%S')]: the year as the number it is, the
    other fields on two digits. *)
Definition strftime (d : civil) : string :=
  decimal (year d) +:+ "-" +:+ dec2 (month d) +:+ "-" +:+ dec2 (day d) +:+ " " +:+
  dec2 (hour d) +:+ ":" +:+ dec2 (minute d) +:+ ":" +:+ dec2 (second d).

Definition weekday (d : civil) : nat :=
  let t := nth (month d - 1) [0; 3; 2; 5; 0; 3; 5; 1; 4; 6; 2; 4] 0 in
  let y := if month d <? 3 then year d - 1 else year d in
  (y + y / 4 - y / 100 + y / 400 + t + day d) mod 7.

Definition json_datetime (d : civil) : string :=
  nth (weekday d) ["Sun"; "Mon"; "Tue"; "Wed"; "Thu"; "Fri"; "Sat"] "" +:+ ", " +:+
  dec2 (day d) +:+ " " +:+
  nth (month d - 1)
    ["Jan"; "Feb"; "Mar"; "Apr"; "May"; "Jun"; "Jul"; "Aug"; "Sep"; "Oct"; "Nov"; "Dec"] ""
  +:+ " " +:+ dec4 (year d) +:+ " " +:+
  dec2 (hour d) +:+ ":" +:+ dec2 (minute d) +:+ ":" +:+ dec2 (second d) +:+ " GMT".

Definition str_exc (e : exn) : string :=
  match e with
  | KeyError => "KeyError"
  | TypeError => "TypeError"
  | ValueError => "ValueError"
  | AttributeError => "AttributeError"
  | ObjectDeletedError => "ObjectDeletedError"
  | IntegrityError => "IntegrityError"
  | DataError => "DataError"
  | OperationalError => "OperationalError"
  end.

Definition platform : Platform :=
  Build_Platform civil _ strptime strftime sql_datetime json_datetime str_exc.
End Ref.

(** ** Concrete requests *)

Module Examples.

Definition launch : body :=
  Some {[ "title" := PStr "Launch"; "description" := PStr "Kickoff";
          "event_date" := PStr "2024-01-01 10:00:00"; "location" := PStr "HQ" ]}.

(** The server clock of the examples. *)
Definition nine : datetime (Platform := Ref.platform) := Ref.mkCivil 2024 1 1 9 0 0.
Definition ten : datetime (Platform := Ref.platform) := Ref.mkCivil 2024 1 1 10 0 0.

Definition db0 : DB := empty_db (P := Ref.platform) nine.

(** The row the scenario of the spec stores. *)
Definition launch_row : Event (P := Ref.platform) :=
  {| id := Some 1; title := PStr "Launch"; description := PStr "Kickoff";
     event_date := Some ten; location := PStr "HQ"; created_at := Some nine |}.

Definition db1 : DB (P := Ref.platform) :=
  {| rows := {[ 1 := launch_row ]}; next_id := 2; current_timestamp := nine |}.

(** The second scenario of the spec: a date without a time. *)
Definition date_only : body :=
  Some {[ "title" := PStr "Launch"; "description" := PStr "Kickoff";
          "event_date" := PStr "2024-01-01"; "location" := PStr "HQ" ]}.

Definition midnight : datetime (Platform := Ref.platform) := Ref.mkCivil 2024 1 1 0 0 0.

Definition date_only_row : Event (P := Ref.platform) :=
  {| id := Some 1; title := PStr "Launch"; description := PStr "Kickoff";
     event_date := Some midnight; location := PStr "HQ"; created_at := Some nine |}.

(** The third scenario of the spec: no [location]. *)
Definition no_location : body :=
  Some {[ "title" := PStr "Launch"; "description" := PStr "Kickoff";
          "event_date" := PStr "2024-01-01 10:00:00" ]}.


(** An update that changes the title only. *)
Definition rename : body := Some {[ "title" := PStr "Lunch" ]}.





End Examples.

(** * What each view computes

    One equation per view: the reply, the stored state afterwards and the
    storage calls, as a function of the request and the stored state. The
    claims below are read off these equations. *)

Section Run.
Context {P : Platform}.

Ltac unfold_views :=
  unfold mbind, M_bind, mret, M_ret, return_, raise, emit, modify, gets, when,
    try_except, try_except_ValueError,
    session_commit, session_rollback, session_add, session_delete, set_state, setattr,
    flush_one, load, query_get, allocate, Event_, ORM.getattr, ORM.call_to_dict,
    connection_cursor, cursor_close, cursor_execute, cursor_fetchone, cursor_fetchall,
    connection_commit, connection_rollback, getcol, get_event_to_delete, py_strftime,
    set_working, set_committed, set_session, set_cur, add_log, fresh in *.
Ltac exec := repeat (unfold_views; cbn).

Lemma db_select_insert k e (d : DB) n :
  db_select k {| rows := <[k := e]> (rows d); next_id := n;
                 current_timestamp := current_timestamp d |} = Some (with_id k e).
Proof. unfold db_select. cbn. by rewrite lookup_insert_eq. Qed.

Lemma orm_create_event_run data (db : DB) :
  run (ORM.create_event data) db =
  if py_not data then (error_reply "Invalid JSON or no data provided" 400, db, [])
  else if negb (forallb (λ f, py_in f data) ORM.required_fields) then
    (error_reply ("Missing required fields: " +:+
       String.concat ", " (List.filter (λ f, negb (py_in f data)) ORM.required_fields)) 400,
     db, [])
  else
    match dict_get data "event_date" PNone with
    | PNone => (Reply (ORM.internal_error TypeError), db, [Rollback])
    | PStr s =>
        match strptime s with
        | None =>
            (error_reply "Invalid event_date format. Use YYYY-MM-DD HH:MM:SS" 400, db, [])
        | Some dt =>
            let e := transient (dict_get data "title" PNone)
                       (dict_get data "description" PNone) (Some dt)
                       (dict_get data "location" PNone) in
            match db_insert e db with
            | inl err => (Reply (ORM.internal_error err), db, [Exec INSERT; Rollback])
            | inr (k, db') =>
                (created_reply k (to_dict (new_row e db)), db',
                 [Exec INSERT; Commit; Exec SELECT])
            end
        end
    end.
Proof.
  unfold run, ORM.create_event, ORM.required_fields, error_reply, created_reply.
  destruct data as [d|]; [|reflexivity].
  cbn [py_not]. case_bool_decide as Hd; [subst; reflexivity|].
  unfold getitem, py_strptime, py_in, dict_get. exec.
  destruct (d !! "title") as [t|] eqn:E1; exec;
  destruct (d !! "description") as [ds|] eqn:E2; exec;
  destruct (d !! "event_date") as [ed|] eqn:E3; exec;
  destruct (d !! "location") as [l|] eqn:E4; exec; try reflexivity.
  destruct ed as [|s]; exec; [reflexivity|].
  destruct (strptime s) as [dt|]; exec; [|reflexivity].
  unfold db_insert.
  destruct (check_row _) as [err|] eqn:Ec; exec; [reflexivity|].
  rewrite db_select_insert. exec. reflexivity.
Qed.

Lemma orm_get_single_event_run k (db : DB) :
  run (ORM.get_single_event k) db =
  match db_select k db with
  | Some row => (Reply (jsonify {[ "event" := JObj (to_dict row) ]}, 200), db, [Exec SELECT])
  | None => (message_reply "Event not found" 404, db, [Exec SELECT])
  end.
Proof.
  unfold run, ORM.get_single_event. exec.
  destruct (db_select k db); exec; reflexivity.
Qed.

Lemma orm_delete_event_run k (db : DB) :
  run (ORM.delete_event k) db =
  match db_select k db with
  | Some _ => (message_reply "Event deleted successfully" 200, (db_delete k db).2,
               [Exec SELECT; Exec DELETE; Commit])
  | None => (message_reply "event_to_delete" 400, db, [Exec SELECT])
  end.
Proof.
  unfold run, ORM.delete_event. exec.
  unfold db_select. destruct (rows db !! k) eqn:E; exec; reflexivity.
Qed.

(** A successful UPDATE leaves under the key the row it was given, when
    that row was derived from the stored one. *)
Lemma db_select_update k e n (db db' : DB) stored :
  rows db !! k = Some stored →
  id e = Some k → created_at e = created_at stored →
  db_update k e db = inr (n, db') →
  db_select k db' = Some e.
Proof.
  intros Hs Hid Hc. unfold db_update. rewrite Hs.
  destruct (check_row _); [done|].
  case_bool_decide as Heq; intros [= <- <-].
  - unfold db_select. rewrite Hs. cbn. f_equal.
    rewrite <- Heq. destruct e; cbn in *; by subst.
  - unfold db_select. cbn. rewrite lookup_insert_eq. cbn. f_equal.
    destruct e; cbn in *; by subst.
Qed.

Lemma orm_update_event_run k data (db : DB) :
  run (ORM.update_event k data) db =
  match db_select k db with
  | None => (message_reply "Event not found" 404, db, [Exec SELECT])
  | Some old =>
      if py_not data then
        (error_reply "Invalid JSON or no data provided" 400, db, [Exec SELECT])
      else
        match assign_date data
                (assign data "description" set_description
                   (assign data "title" set_title old)) with
        | inl ValueError =>
            (error_reply "Invalid event_date format. Use YYYY-MM-DD HH:MM:SS" 400,
             db, [Exec SELECT])
        | inl err => (Reply (ORM.internal_error err), db, [Exec SELECT; Rollback])
        | inr e =>
            let e' := assign data "location" set_location e in
            if bool_decide (e' = old) then
              (updated_reply k (to_dict old), db, [Exec SELECT; Commit; Exec SELECT])
            else
              match db_update k e' db with
              | inl err =>
                  (Reply (ORM.internal_error err), db,
                   [Exec SELECT; Exec UPDATE; Rollback])
              | inr (_, db') =>
                  (updated_reply k (to_dict e'), db',
                   [Exec SELECT; Exec UPDATE; Commit; Exec SELECT])
              end
        end
  end.
Proof.
  unfold run, ORM.update_event, error_reply, message_reply, updated_reply, db_select.
  exec. unfold db_select.
  destruct (rows db !! k) as [stored|] eqn:Hs; exec; [|reflexivity].
  destruct data as [d|]; [|reflexivity].
  cbn [py_not]. case_bool_decide as Hd; [subst; reflexivity|].
  unfold assign, assign_date, getitem, py_strptime, py_in, dict_get. exec.
  assert (∀ e n db', id e = Some k → created_at e = created_at stored →
            db_update k e db = inr (n, db') → with_id k <$> rows db' !! k = Some e)
    as Hsel by (intros; by eapply db_select_update).
  destruct (d !! "title") as [t|] eqn:E1; exec;
  destruct (d !! "description") as [ds|] eqn:E2; exec;
  (destruct (d !! "event_date") as [[|s]|] eqn:E3; exec; try reflexivity;
   [destruct (strptime s) as [dt|]; exec; try reflexivity|]);
  destruct (d !! "location") as [l|] eqn:E4; exec;
  unfold db_select; rewrite ?Hs; exec;
  (case_bool_decide as Heq; exec; unfold db_select;
   [rewrite ?Hs; exec; reflexivity|]);
  match goal with
  | |- context [db_update k ?e db] =>
      destruct (db_update k e db) as [err|[n db']] eqn:Hu; exec; [reflexivity|];
      unfold db_select; rewrite (Hsel e n db' eq_refl eq_refl Hu); exec; reflexivity
  end.
Qed.

Lemma raw_create_event_run data (db : DB) :
  run (Raw.create_event data) db =
  if py_not data then (error_reply "Invalid JSON or no data provided" 400, db, [])
  else if negb (forallb (λ f, py_in f data) ORM.required_fields) then
    (error_reply
       "Missing required event fields (title, description, event_date, location)" 400,
     db, [])
  else
    let title := dict_get data "title" PNone in
    let description := dict_get data "description" PNone in
    let event_date := dict_get data "event_date" PNone in
    let location := dict_get data "location" PNone in
    match bind_row title description event_date location with
    | inl err => (Reply (Raw.internal_error err), db, [Cursor; Exec INSERT; Rollback])
    | inr e =>
        match db_insert e db with
        | inl err => (Reply (Raw.internal_error err), db, [Cursor; Exec INSERT; Rollback])
        | inr (k, db') =>
            (created_reply k (echo title description event_date location), db',
             [Cursor; Exec INSERT; Commit; Close])
        end
    end.
Proof.
  unfold run, Raw.create_event, ORM.required_fields, error_reply, created_reply, echo.
  destruct data as [d|]; [|reflexivity].
  cbn [py_not]. case_bool_decide as Hd; [subst; reflexivity|].
  destruct (forallb _ _); exec; [|reflexivity].
  destruct (bind_row _ _ _ _) as [err|e]; exec; [reflexivity|].
  destruct (db_insert e db) as [err|[k db']]; exec; reflexivity.
Qed.

Lemma raw_get_single_event_run k (db : DB) :
  run (Raw.get_single_event k) db =
  match db_select k db with
  | Some row => (Reply (jsonify {[ "event" := row_json row ]}, 200), db,
                 [Cursor; Exec SELECT; Close])
  | None => (message_reply "Event not found" 404, db, [Cursor; Exec SELECT; Close])
  end.
Proof.
  unfold run, Raw.get_single_event. exec.
  destruct (db_select k db); exec; reflexivity.
Qed.

Lemma raw_update_event_run k data (db : DB) :
  run (Raw.update_event k data) db =
  match db_select k db with
  | None => (message_reply "Event not found" 404, db, [Cursor; Exec SELECT; Close])
  | Some old =>
      if py_not data then
        (error_reply "Invalid JSON or data not provided" 400, db,
         [Cursor; Exec SELECT; Close])
      else
        match event_date old with
        | None =>
            (Reply (Raw.internal_error AttributeError), db,
             [Cursor; Exec SELECT; Rollback])
        | Some d0 =>
            let title := dict_get data "title" (title old) in
            let description := dict_get data "description" (description old) in
            let event_date := dict_get data "event_date" (PStr (strftime d0)) in
            let location := dict_get data "location" (location old) in
            match bind_row title description event_date location with
            | inl err =>
                (Reply (Raw.internal_error err), db,
                 [Cursor; Exec SELECT; Exec UPDATE; Rollback])
            | inr e =>
                match db_update k e db with
                | inl err =>
                    (Reply (Raw.internal_error err), db,
                     [Cursor; Exec SELECT; Exec UPDATE; Rollback])
                | inr (n, db') =>
                    if n =? 0 then
                      (message_reply no_change 200, db',
                       [Cursor; Exec SELECT; Exec UPDATE; Commit])
                    else
                      (updated_reply k (echo title description event_date location),
                       db', [Cursor; Exec SELECT; Exec UPDATE; Commit; Close])
                end
            end
        end
  end.
Proof.
  unfold run, Raw.update_event, error_reply, message_reply, updated_reply, echo, no_change.
  exec.
  destruct (db_select k db) as [old|]; exec; [|reflexivity].
  destruct (py_not data); exec; [reflexivity|].
  destruct (event_date old) as [d0|]; exec; [|reflexivity].
  destruct (bind_row _ _ _ _) as [err|e]; exec; [reflexivity|].
  destruct (db_update k e db) as [err|[n db']]; exec; [reflexivity|].
  destruct (n =? 0); exec; reflexivity.
Qed.

Lemma raw_delete_event_run k (db : DB) :
  run (Raw.delete_event k) db =
  match rows db !! k with
  | Some _ => (message_reply "Event deleted successfully" 200, (db_delete k db).2,
               [Cursor; Exec SELECT; Exec DELETE; Commit; Close])
  | None => (message_reply "Event not found" 404, db, [Cursor; Exec SELECT; Close])
  end.
Proof.
  unfold run, Raw.delete_event. exec.
  destruct (rows db !! k) eqn:E; exec; reflexivity.
Qed.

Lemma raw_get_all_events_run (db : DB) :
  run Raw.get_all_events db =
  (Reply (jsonify {[ "events" := JArr (row_json <$> db_select_all db) ]}, 200), db,
   [Cursor; Exec SELECT; Close]).
Proof.
  unfold run, Raw.get_all_events. exec.
  rewrite <- list_fmap_compose. reflexivity.
Qed.

(** [Event.query.all()] hands out one persistent instance per row, and
    reading them back touches nothing. *)
Lemma bind_normal {A B} (m : M A) (f : A → M B) (w w' : world) a :
  m w = (Normal a, w') → (m ≫= f) w = f a w'.
Proof. intros H. unfold mbind, M_bind. by rewrite H. Qed.

Lemma mapM_allocate (l : list Event) (w : world) :
  mapM (allocate Persistent) l w =
  (Normal (seq (length (session w)) (length l)),
   set_session (session w ++ ((λ e, (Persistent, e)) <$> l))%list w).
Proof.
  revert w. induction l as [|x l IH]; intros w.
  - cbn. unfold mret, M_ret, set_session. rewrite app_nil_r. by destruct w.
  - cbn [mapM]. erewrite bind_normal; [|reflexivity].
    erewrite bind_normal; [|apply IH]. cbn.
    rewrite length_app, <- app_assoc. cbn. by rewrite Nat.add_1_r.
Qed.

Lemma call_to_dict_persistent r e (w : world) :
  session w !! r = Some (Persistent, e) →
  ORM.call_to_dict r w = (Normal (to_dict e), w).
Proof.
  intros H. unfold ORM.call_to_dict, load, gets.
  unfold mbind, M_bind. by rewrite H.
Qed.

Lemma mapM_call_to_dict (l : list Event) (pre : list (objstate * Event)) (w : world) :
  session w = (pre ++ ((λ e, (Persistent, e)) <$> l))%list →
  mapM ORM.call_to_dict (seq (length pre) (length l)) w = (Normal (to_dict <$> l), w).
Proof.
  revert pre. induction l as [|x l IH]; intros pre Hw; [reflexivity|].
  cbn [mapM seq length].
  erewrite bind_normal;
    [|apply (call_to_dict_persistent _ x); rewrite Hw; by apply list_lookup_middle].
  erewrite bind_normal; [reflexivity|].
  specialize (IH (pre ++ [(Persistent, x)])%list).
  rewrite length_app, Nat.add_1_r in IH. apply IH.
  by rewrite Hw, <- app_assoc.
Qed.

Lemma orm_get_all_events_run (db : DB) :
  run ORM.get_all_events db =
  (Reply (jsonify {[ "events" := JArr (JObj <$> (to_dict <$> db_select_all db)) ]}, 200),
   db, [Exec SELECT]).
Proof.
  unfold run, ORM.get_all_events, ORM.query_all, try_except.
  erewrite bind_normal.
  2:{ erewrite bind_normal; [|reflexivity].
      erewrite bind_normal; [|reflexivity]. apply mapM_allocate. }
  erewrite bind_normal; [|by apply (mapM_call_to_dict _ [])].
  reflexivity.
Qed.

End Run.

(** * The claims *)

Section NotFound.
Context {P : Platform}.

(** An id that is not stored: both reads, both updates and the raw delete
    answer 404 under [message]; the ORM delete answers 400. *)
Lemma missing_id_replies (db : DB) k data :
  rows db !! k = None →
  reply_of (run (ORM.get_single_event k) db) = message_reply "Event not found" 404 ∧
  reply_of (run (ORM.update_event k data) db) = message_reply "Event not found" 404 ∧
  reply_of (run (Raw.get_single_event k) db) = message_reply "Event not found" 404 ∧
  reply_of (run (Raw.update_event k data) db) = message_reply "Event not found" 404 ∧
  reply_of (run (Raw.delete_event k) db) = message_reply "Event not found" 404 ∧
  reply_of (run (ORM.delete_event k) db) = message_reply "event_to_delete" 400.
Proof.
  intros H.
  rewrite orm_get_single_event_run, orm_update_event_run, raw_get_single_event_run,
    raw_update_event_run, raw_delete_event_run, orm_delete_event_run.
  unfold db_select. rewrite H. cbn. done.
Qed.

(** An id is not stored once it has been deleted, by either variant. *)
Lemma deleted_is_missing v (db : DB) k :
  rows (state_of (run (view v (DELETE_event k)) db)) !! k = None.
Proof.
  destruct v; cbn [view].
  - rewrite orm_delete_event_run. unfold db_select, db_delete.
    destruct (rows db !! k) eqn:E; cbn; [apply lookup_delete_eq | done].
  - rewrite raw_delete_event_run. unfold db_delete.
    destruct (rows db !! k) eqn:E; cbn; rewrite ?E; cbn; [apply lookup_delete_eq | done].
Qed.

(** C1 (code defect): on the empty table, where no id was ever created,
    the ORM variant answers DELETE /events/<k> with status 400 and the
    payload [{"message": "event_to_delete"}], not with the 404 "not found"
    that the claim states and that the raw variant gives. *)
Theorem orm_delete_of_missing_id_is_400 now k :
  run (ORM.delete_event k) (empty_db now) =
    (message_reply "event_to_delete" 400, empty_db now, [Exec SELECT]) ∧
  run (Raw.delete_event k) (empty_db now) =
    (message_reply "Event not found" 404, empty_db now, [Cursor; Exec SELECT; Close]).
Proof.
  rewrite orm_delete_event_run, raw_delete_event_run.
  unfold db_select. cbn. rewrite lookup_empty. done.
Qed.

(** C10: for an id that is stored, a PUT whose body is the empty object is
    answered 400 by both variants, exactly as a PUT without a body is;
    nothing is written. *)
Theorem put_empty_object_is_rejected (db : DB) k :
  is_Some (rows db !! k) →
  run (ORM.update_event k (Some ∅)) db =
    (error_reply "Invalid JSON or no data provided" 400, db, [Exec SELECT]) ∧
  run (ORM.update_event k (Some ∅)) db = run (ORM.update_event k None) db ∧
  run (Raw.update_event k (Some ∅)) db =
    (error_reply "Invalid JSON or data not provided" 400, db,
     [Cursor; Exec SELECT; Close]) ∧
  run (Raw.update_event k (Some ∅)) db = run (Raw.update_event k None) db.
Proof.
  intros [e He].
  rewrite !orm_update_event_run, !raw_update_event_run.
  unfold db_select. rewrite He. cbn. done.
Qed.

End NotFound.

Lemma put_empty_object_is_rejected_witness :
  is_Some (rows Examples.db1 !! 1) ∧
  run (P := Ref.platform) (ORM.update_event 1 (Some ∅)) Examples.db1 =
    (error_reply "Invalid JSON or no data provided" 400, Examples.db1, [Exec SELECT]).
Proof.
  split; [by eexists|].
  apply (put_empty_object_is_rejected (P := Ref.platform) Examples.db1 1).
  by eexists.
Defined.

Section Validation.
Context {P : Platform}.

Lemma all_fields_not_empty data :
  forallb (λ f, py_in f data) ORM.required_fields = true → py_not data = false.
Proof.
  destruct data as [d|]; [|done]. cbn. intros H.
  apply bool_decide_eq_false_2. intros ->.
  rewrite lookup_empty in H. cbn in H. done.
Qed.

Lemma error_text_reply msg code (db : DB) l :
  error_text (error_reply msg code, db, l) = msg.
Proof. unfold error_text, payload_of. cbn. by rewrite lookup_singleton_eq. Qed.

(** The raw create never answers 400 to a body that has the four fields:
    it stores the row or fails in the database. *)
Lemma raw_create_full_body (db : DB) data :
  forallb (λ f, py_in f data) ORM.required_fields = true →
  status_of (run (Raw.create_event data) db) = 201 ∨
  status_of (run (Raw.create_event data) db) = 500 ∧
  state_of (run (Raw.create_event data) db) = db.
Proof.
  intros Hall. rewrite raw_create_event_run, (all_fields_not_empty _ Hall), Hall.
  cbn [negb]. cbv zeta.
  destruct (bind_row _ _ _ _) as [err|e]; [by right|].
  destruct (db_insert e db) as [err|[k db']]; [by right | by left].
Qed.

(** C3 (amended): a create whose body has the four fields and whose
    [event_date] is a string that [strptime] does not parse is answered by
    the ORM variant with 400 and the format message, before any storage
    call and with no row inserted. The raw variant does not check the
    format: it hands the string to the database and answers 201, or 500
    with nothing stored when the database refuses the statement. *)
Theorem create_with_unparsable_date (db : DB) data s :
  forallb (λ f, py_in f data) ORM.required_fields = true →
  dict_get data "event_date" PNone = PStr s →
  strptime s = None →
  run (ORM.create_event data) db =
    (error_reply "Invalid event_date format. Use YYYY-MM-DD HH:MM:SS" 400, db, []) ∧
  (status_of (run (Raw.create_event data) db) = 201 ∨
   status_of (run (Raw.create_event data) db) = 500 ∧
   state_of (run (Raw.create_event data) db) = db).
Proof.
  intros Hall Hdate Hparse. split; [|by apply raw_create_full_body].
  rewrite orm_create_event_run, (all_fields_not_empty _ Hall), Hall, Hdate, Hparse.
  reflexivity.
Qed.

(** C6 (amended): a create whose body is not empty and lacks some of the
    four fields is answered 400 by both variants with nothing stored and no
    storage call. The ORM message lists the missing fields, in the order
    title, description, event_date, location, and names no field that is
    present. The raw message is fixed and names all four. *)
Theorem create_with_missing_fields (db : DB) data :
  py_not data = false →
  forallb (λ f, py_in f data) ORM.required_fields = false →
  run (ORM.create_event data) db =
    (error_reply ("Missing required fields: " +:+ String.concat ", "
       (List.filter (λ f, negb (py_in f data)) ORM.required_fields)) 400, db, []) ∧
  (∀ f, f ∈ ORM.required_fields →
     contains (error_text (run (ORM.create_event data) db)) f = negb (py_in f data)) ∧
  run (Raw.create_event data) db =
    (error_reply
       "Missing required event fields (title, description, event_date, location)" 400,
     db, []).
Proof.
  intros Hdata Hall.
  rewrite orm_create_event_run, raw_create_event_run, Hdata, Hall. cbn [negb].
  split; [reflexivity|]. split; [|reflexivity].
  intros f Hf. rewrite error_text_reply. unfold ORM.required_fields in *.
  cbn [List.filter].
  repeat (apply elem_of_cons in Hf as [->|Hf];
          [destruct (py_in "title" data), (py_in "description" data),
             (py_in "event_date" data), (py_in "location" data); reflexivity|]).
  by apply elem_of_nil in Hf.
Qed.

End Validation.

Lemma create_with_unparsable_date_witness :
  run (P := Ref.platform) (ORM.create_event Examples.date_only) Examples.db0 =
    (error_reply "Invalid event_date format. Use YYYY-MM-DD HH:MM:SS" 400,
     Examples.db0, []).
Proof.
  apply (create_with_unparsable_date (P := Ref.platform) Examples.db0
           Examples.date_only "2024-01-01"); reflexivity.
Defined.

(** C3, counterexample: POST with [event_date] "2024-01-01", which
    [strptime] rejects, sent to the raw variant on the empty table: the
    reply is 201 and a row is stored. *)
Lemma raw_create_accepts_date_without_time :
  strptime (Platform := Ref.platform) "2024-01-01" = None ∧
  run (P := Ref.platform) (Raw.create_event Examples.date_only) Examples.db0 =
    (created_reply 1
       (echo (PStr "Launch") (PStr "Kickoff") (PStr "2024-01-01") (PStr "HQ")),
     {| rows := {[ 1 := Examples.date_only_row ]}; next_id := 2;
        current_timestamp := Examples.nine |},
     [Cursor; Exec INSERT; Commit; Close]).
Proof. split; reflexivity. Qed.

Lemma create_with_missing_fields_witness :
  run (P := Ref.platform) (ORM.create_event Examples.no_location) Examples.db0 =
    (error_reply "Missing required fields: location" 400, Examples.db0, []).
Proof.
  apply (create_with_missing_fields (P := Ref.platform) Examples.db0
           Examples.no_location); reflexivity.
Defined.

(** C6, counterexample: POST without [location] to the raw variant: the
    message names [title], which the body has. And POST of the empty
    object: all four fields are missing and the message, the same in both
    variants, names none of them. *)
Lemma missing_field_messages_not_exact :
  (run (P := Ref.platform) (Raw.create_event Examples.no_location) Examples.db0 =
     (error_reply
        "Missing required event fields (title, description, event_date, location)" 400,
      Examples.db0, []) ∧
   py_in "title" Examples.no_location = true ∧
   contains "Missing required event fields (title, description, event_date, location)"
     "title" = true) ∧
  (run (P := Ref.platform) (ORM.create_event (Some ∅)) Examples.db0 =
     (error_reply "Invalid JSON or no data provided" 400, Examples.db0, []) ∧
   py_in "location" (Some ∅) = false ∧
   contains "Invalid JSON or no data provided" "location" = false ∧
   run (P := Ref.platform) (Raw.create_event (Some ∅)) Examples.db0 =
     (error_reply "Invalid JSON or no data provided" 400, Examples.db0, [])).
Proof. repeat split; reflexivity. Qed.

Section Storage.
Context {P : Platform}.

(** What a successful UPDATE leaves: under its key the stored row with the
    four payload columns replaced, every other row as it was. *)
Lemma db_update_spec k e n (db db' : DB) stored :
  rows db !! k = Some stored →
  db_update k e db = inr (n, db') →
  check_row (set_columns e stored) = None ∧
  db_select k db' = Some (with_id k (set_columns e stored)) ∧
  (∀ k', k' ≠ k → rows db' !! k' = rows db !! k') ∧
  next_id db' = next_id db ∧
  (n = 0 ↔ set_columns e stored = stored) ∧
  (n = 0 → db' = db).
Proof.
  intros Hs. unfold db_update. rewrite Hs.
  destruct (check_row _) eqn:Hc; [done|].
  case_bool_decide as Heq; intros [= <- <-]; (split; [done|]).
  - unfold db_select. rewrite Hs, Heq. done.
  - unfold db_select. cbn. rewrite lookup_insert_eq.
    repeat split; try done.
    intros k' Hk. by rewrite lookup_insert_ne.
Qed.

Lemma db_insert_spec e k (db db' : DB) :
  db_insert e db = inr (k, db') →
  check_row e = None ∧ k = next_id db ∧
  rows db' = <[k := new_row e db]> (rows db).
Proof.
  unfold db_insert. destruct (check_row e); [done|]. by intros [= <- <-].
Qed.

Lemma dict_get_absent data key v : py_in key data = false → dict_get data key v = v.
Proof.
  destruct data as [d|]; [|done]. cbn.
  destruct (d !! key) eqn:E; [|done].
  intros H. apply bool_decide_eq_false_1 in H. by destruct H.
Qed.

Lemma dict_get_present data key v w :
  py_in key data = true → dict_get data key v = dict_get data key w.
Proof.
  destruct data as [d|]; [|done]. cbn.
  destruct (d !! key) eqn:E; [done|].
  intros H. apply bool_decide_eq_true_1 in H. by destruct H.
Qed.

Lemma to_dict_lookup (e : Event) :
  to_dict e !! "title" = Some (to_json (title e)) ∧
  to_dict e !! "description" = Some (to_json (description e)) ∧
  to_dict e !! "event_date" =
    Some (match event_date e with Some d => JStr (strftime d) | None => JNull end) ∧
  to_dict e !! "location" = Some (to_json (location e)) ∧
  to_dict e !! "id" = Some (match id e with Some k => JInt k | None => JNull end).
Proof. repeat split; reflexivity. Qed.

Lemma row_dict_lookup (e : Event) :
  row_dict e !! "title" = Some (to_json (title e)) ∧
  row_dict e !! "description" = Some (to_json (description e)) ∧
  row_dict e !! "event_date" =
    Some (match event_date e with Some d => JStr (json_datetime d) | None => JNull end) ∧
  row_dict e !! "location" = Some (to_json (location e)) ∧
  row_dict e !! "id" = Some (match id e with Some k => JInt k | None => JNull end).
Proof. repeat split; reflexivity. Qed.


(** The column checks do not depend on which date a row holds. *)
Lemma check_row_date t ds d d' l :
  check_row (transient t ds (Some d') l) = check_row (transient t ds (Some d) l).
Proof. reflexivity. Qed.

End Storage.

Section RoundTrip.
Context {P : Platform}.

(** C4 (amended): for every valid create payload (the four fields present,
    title and location strings of at most 255 characters, event_date a
    string that [strptime] and the server both read), the ORM variant
    returns an event_id whose read yields exactly the record of the
    creation response. The raw variant's creation response echoes the four
    submitted fields; the read under the returned id has the same title,
    description and location, the stored date as [jsonify] renders it, and
    the id, which the creation record lacks. *)
Theorem created_event_reads_back (db : DB) data s d d' :
  forallb (λ f, py_in f data) ORM.required_fields = true →
  dict_get data "event_date" PNone = PStr s →
  strptime s = Some d →
  sql_datetime s = Some d' →
  check_row (transient (dict_get data "title" PNone) (dict_get data "description" PNone)
               (Some d) (dict_get data "location" PNone)) = None →
  (∃ k record,
     reply_of (run (ORM.create_event data) db) = created_reply k record ∧
     reply_of (run (ORM.get_single_event k) (state_of (run (ORM.create_event data) db))) =
       Reply (jsonify {[ "event" := JObj record ]}, 200)) ∧
  (∃ k created read,
     reply_of (run (Raw.create_event data) db) = created_reply k created ∧
     reply_of (run (Raw.get_single_event k) (state_of (run (Raw.create_event data) db))) =
       Reply (jsonify {[ "event" := JObj read ]}, 200) ∧
     (∀ f, f ∈ ["title"; "description"; "location"] → read !! f = created !! f) ∧
     created !! "event_date" = Some (JStr s) ∧
     read !! "event_date" = Some (JStr (json_datetime d')) ∧
     created !! "id" = None ∧
     read !! "id" = Some (JInt k)).
Proof.
  intros Hall Hdate Hparse Hsql Hcheck.
  pose proof (all_fields_not_empty _ Hall) as Hdata.
  split.
  - exists (next_id db). eexists.
    rewrite orm_create_event_run, Hdata, Hall, Hdate, Hparse. cbn [negb]. cbv zeta.
    unfold db_insert. rewrite Hcheck. cbn [reply_of state_of fst snd].
    split; [reflexivity|].
    rewrite orm_get_single_event_run, db_select_insert. reflexivity.
  - exists (next_id db). do 2 eexists.
    rewrite raw_create_event_run, Hdata, Hall. cbn [negb]. cbv zeta.
    unfold bind_row, bind_datetime. rewrite Hdate, Hsql.
    unfold db_insert. rewrite (check_row_date _ _ d d'), Hcheck.
    cbn [reply_of state_of fst snd].
    split; [reflexivity|].
    rewrite raw_get_single_event_run, db_select_insert.
    split; [reflexivity|].
    split; [|repeat split; reflexivity].
    intros f Hf.
    repeat (apply elem_of_cons in Hf as [->|Hf]; [reflexivity|]).
    by apply elem_of_nil in Hf.
Qed.

End RoundTrip.

Lemma created_event_reads_back_witness :
  ∃ k record,
    reply_of (run (P := Ref.platform) (ORM.create_event Examples.launch) Examples.db0) =
      created_reply k record ∧
    reply_of (run (P := Ref.platform) (ORM.get_single_event k)
                (state_of (run (P := Ref.platform) (ORM.create_event Examples.launch)
                             Examples.db0))) =
      Reply (jsonify {[ "event" := JObj record ]}, 200).
Proof.
  apply (created_event_reads_back (P := Ref.platform) Examples.db0 Examples.launch
           "2024-01-01 10:00:00" Examples.ten Examples.ten); reflexivity.
Defined.

(** C4, counterexample: the first scenario of the spec on the raw variant.
    The creation response carries the four submitted fields; the read under
    the returned id 1 carries six, with the date in another rendering. *)
Lemma raw_created_record_differs_from_read :
  run (P := Ref.platform) (Raw.create_event Examples.launch) Examples.db0 =
    (created_reply 1
       {[ "title" := JStr "Launch"; "description" := JStr "Kickoff";
          "event_date" := JStr "2024-01-01 10:00:00"; "location" := JStr "HQ" ]},
     Examples.db1, [Cursor; Exec INSERT; Commit; Close]) ∧
  run (P := Ref.platform) (Raw.get_single_event 1) Examples.db1 =
    (Reply (jsonify {[ "event" := JObj
       {[ "id" := JInt 1; "title" := JStr "Launch"; "description" := JStr "Kickoff";
          "event_date" := JStr "Mon, 01 Jan 2024 10:00:00 GMT"; "location" := JStr "HQ";
          "created_at" := JStr "Mon, 01 Jan 2024 09:00:00 GMT" ]} ]}, 200),
     Examples.db1, [Cursor; Exec SELECT; Close]).
Proof. split; reflexivity. Qed.

Section PartialUpdate.
Context {P : Platform}.

Lemma db_select_stored k (db : DB) old :
  db_select k db = Some old →
  ∃ stored, rows db !! k = Some stored ∧ old = with_id k stored.
Proof.
  unfold db_select. destruct (rows db !! k) as [stored|]; [|done].
  intros [= <-]. by exists stored.
Qed.

Lemma with_id_set_columns k e stored :
  id e = Some k → created_at e = created_at stored →
  with_id k (set_columns e stored) = e.
Proof. destruct e. cbn. by intros -> ->. Qed.

Lemma frame_refl data e : frame data e e.
Proof. by repeat split. Qed.

(** The instance the ORM update commits differs from the loaded one only
    in the attributes the body names. *)
Lemma orm_merge_frame data old e :
  assign_date data
    (assign data "description" set_description (assign data "title" set_title old))
  = inr e →
  frame data old (assign data "location" set_location e).
Proof.
  unfold assign_date, assign, frame, kept.
  destruct (py_in "title" data), (py_in "description" data),
    (py_in "event_date" data), (py_in "location" data);
    try (destruct (dict_get data "event_date" PNone) as [|s]; [done|];
         destruct (strptime s); [|done]);
    intros [= <-]; cbn; by repeat split.
Qed.









End PartialUpdate.



Section NoChange.
Context {P : Platform}.



End NoChange.



Section Ordering.
Context {P : Platform}.

(** C8 (amended): a create that ends in a validation error (status 400)
    made no storage call at all. An update first looks the row up by id, to
    answer 404 before it looks at the body, so an update that ends in a
    validation error has made that one read; it has made no write. In both
    cases, and in both variants, the stored state is unchanged. *)
Theorem validation_errors_and_storage v (db : DB) data k :
  (status_of (run (view v (POST_events data)) db) = 400 →
     calls_of (run (view v (POST_events data)) db) = [] ∧
     state_of (run (view v (POST_events data)) db) = db) ∧
  (status_of (run (view v (PUT_event k data)) db) = 400 →
     List.filter is_read (calls_of (run (view v (PUT_event k data)) db)) = [Exec SELECT] ∧
     List.filter is_write (calls_of (run (view v (PUT_event k data)) db)) = [] ∧
     state_of (run (view v (PUT_event k data)) db) = db).
Proof.
  destruct v; cbn [view]; split.
  - rewrite orm_create_event_run.
    destruct (py_not data); [done|].
    destruct (negb _); [done|].
    destruct (dict_get _ _ _) as [|s]; [done|].
    destruct (strptime s); [|done]. cbv zeta.
    by destruct (db_insert _ _) as [err|[n db']].
  - rewrite orm_update_event_run.
    destruct (db_select k db) as [old|]; [|done].
    destruct (py_not data); [done|].
    destruct (assign_date _ _) as [[]|e]; try done.
    cbv zeta. case_bool_decide; [done|].
    by destruct (db_update _ _ _) as [err|[n db']].
  - rewrite raw_create_event_run.
    destruct (py_not data); [done|].
    destruct (negb _); [done|]. cbv zeta.
    destruct (bind_row _ _ _ _) as [err|e]; [done|].
    by destruct (db_insert _ _) as [err|[n db']].
  - rewrite raw_update_event_run.
    destruct (db_select k db) as [old|]; [|done].
    destruct (py_not data); [done|].
    destruct (event_date old); [|done]. cbv zeta.
    destruct (bind_row _ _ _ _) as [err|e]; [done|].
    destruct (db_update _ _ _) as [err|[n db']]; [done|].
    by destruct (n =? 0).
Qed.

End Ordering.

Lemma validation_errors_and_storage_witness :
  List.filter is_read
    (calls_of (run (P := Ref.platform) (Raw.update_event 1 None) Examples.db1)) =
    [Exec SELECT] ∧
  List.filter is_write
    (calls_of (run (P := Ref.platform) (Raw.update_event 1 None) Examples.db1)) = [] ∧
  state_of (run (P := Ref.platform) (Raw.update_event 1 None) Examples.db1) = Examples.db1.
Proof.
  apply (validation_errors_and_storage (P := Ref.platform) RawSql Examples.db1 None 1).
  reflexivity.
Defined.

(** C8, counterexample: a PUT without a body for a stored id, on the ORM
    variant: the reply is the validation error, and the storage layer has
    been read before it. *)
Lemma update_reads_before_validating :
  run (P := Ref.platform) (ORM.update_event 1 None) Examples.db1 =
    (error_reply "Invalid JSON or no data provided" 400, Examples.db1, [Exec SELECT]) ∧
  run (P := Ref.platform) (Raw.update_event 1 None) Examples.db1 =
    (error_reply "Invalid JSON or data not provided" 400, Examples.db1,
     [Cursor; Exec SELECT; Close]).
Proof. split; reflexivity. Qed.

Section Invariant.
Context {P : Platform}.

(** A request leaves the stored state as it was, or as one successful
    INSERT, UPDATE or DELETE made it. *)
Lemma view_state v r (db : DB) :
  let st := state_of (run (view v r) db) in
  st = db ∨
  (∃ e k, db_insert e db = inr (k, st)) ∨
  (∃ k e n, db_update k e db = inr (n, st)) ∨
  (∃ k, st = (db_delete k db).2).
Proof.
  destruct v, r as [data| |k|k data|k]; cbn [view]; cbv zeta.
  - rewrite orm_create_event_run.
    destruct (py_not data); [by left|].
    destruct (negb _); [by left|].
    destruct (dict_get _ _ _) as [|s]; [by left|].
    destruct (strptime s); [|by left]. cbv zeta.
    destruct (db_insert _ _) as [err|[n db']] eqn:E; [by left|].
    right; left. by do 2 eexists.
  - rewrite orm_get_all_events_run. by left.
  - rewrite orm_get_single_event_run. by destruct (db_select k db); left.
  - rewrite orm_update_event_run.
    destruct (db_select k db) as [old|]; [|by left].
    destruct (py_not data); [by left|].
    destruct (assign_date _ _) as [[]|e]; try by left.
    cbv zeta. case_bool_decide; [by left|].
    destruct (db_update _ _ _) as [err|[n db']] eqn:E; [by left|].
    right; right; left. by do 3 eexists.
  - rewrite orm_delete_event_run.
    destruct (db_select k db); [|by left]. right; right; right. by eexists.
  - rewrite raw_create_event_run.
    destruct (py_not data); [by left|].
    destruct (negb _); [by left|]. cbv zeta.
    destruct (bind_row _ _ _ _) as [err|e]; [by left|].
    destruct (db_insert _ _) as [err|[n db']] eqn:E; [by left|].
    right; left. by do 2 eexists.
  - rewrite raw_get_all_events_run. by left.
  - rewrite raw_get_single_event_run. by destruct (db_select k db); left.
  - rewrite raw_update_event_run.
    destruct (db_select k db) as [old|]; [|by left].
    destruct (py_not data); [by left|].
    destruct (event_date old); [|by left]. cbv zeta.
    destruct (bind_row _ _ _ _) as [err|e]; [by left|].
    destruct (db_update _ _ _) as [err|[n db']] eqn:E; [by left|].
    destruct (n =? 0); right; right; left; by do 3 eexists.
  - rewrite raw_delete_event_run.
    destruct (rows db !! k); [|by left]. right; right; right. by eexists.
Qed.

Lemma check_row_not_null e : check_row e = None → not_null e = true.
Proof. unfold check_row. by destruct (not_null e). Qed.

Lemma constrained_insert e k (db db' : DB) :
  constrained db → db_insert e db = inr (k, db') → constrained db'.
Proof.
  intros Hc Hi k' e' He'.
  destruct (db_insert_spec _ _ _ _ Hi) as (Hok & -> & Hrows).
  rewrite Hrows in He'. apply lookup_insert_Some in He' as [[_ <-]|[_ He']].
  - by apply check_row_not_null in Hok.
  - by eapply Hc.
Qed.

Lemma constrained_update k e n (db db' : DB) :
  constrained db → db_update k e db = inr (n, db') → constrained db'.
Proof.
  intros Hc Hu k' e' He'.
  destruct (rows db !! k) as [stored|] eqn:Hs.
  - destruct (db_update_spec _ _ _ _ _ _ Hs Hu) as (Hok & Hsel & Hother & _).
    destruct (decide (k' = k)) as [->|Hne].
    + unfold db_select in Hsel. rewrite He' in Hsel. cbn in Hsel.
      apply check_row_not_null in Hok.
      assert (with_id k e' = with_id k (set_columns e stored)) as Heq by congruence.
      change (not_null (with_id k e') = true). by rewrite Heq.
    + rewrite Hother in He' by done. by eapply Hc.
  - unfold db_update in Hu. rewrite Hs in Hu. injection Hu as _ <-. by eapply Hc.
Qed.

Lemma constrained_delete k (db : DB) : constrained db → constrained (db_delete k db).2.
Proof.
  intros Hc k' e' He'. unfold db_delete in He'.
  destruct (rows db !! k); cbn in He'; [|by eapply Hc].
  apply lookup_delete_Some in He' as [_ He']. by eapply Hc.
Qed.

Lemma reachable_constrained (db : DB) : reachable db → constrained db.
Proof.
  induction 1 as [now|v r db _ IH|now db _ IH].
  - intros k e He. cbn in He. by rewrite lookup_empty in He.
  - destruct (view_state v r db) as [->|[(e & k & H)|[(k & e & n & H)|(k & ->)]]].
    + done.
    + by eapply constrained_insert.
    + by eapply constrained_update.
    + by apply constrained_delete.
  - done.
Qed.

(** C9: every row of every stored state that the API reaches from the
    empty table, by any sequence of requests to either variant, has a title,
    an event_date and a location that are not null. *)
Theorem stored_events_have_required_columns (db : DB) :
  reachable db →
  ∀ k e, rows db !! k = Some e →
    title e ≠ PNone ∧ event_date e ≠ None ∧ location e ≠ PNone.
Proof.
  intros Hr k e He. apply reachable_constrained in Hr.
  specialize (Hr k e He). unfold not_null in Hr.
  by destruct (title e), (event_date e), (location e).
Qed.

End Invariant.

Lemma stored_events_have_required_columns_witness :
  reachable (P := Ref.platform) Examples.db1 ∧
  title Examples.launch_row ≠ PNone ∧
  event_date Examples.launch_row ≠ None ∧
  location Examples.launch_row ≠ PNone.
Proof.
  assert (reachable (P := Ref.platform) Examples.db1) as Hr.
  { exact (reach_request Orm (POST_events Examples.launch) Examples.db0
             (reach_empty Examples.nine)). }
  split; [exact Hr|].
  exact (stored_events_have_required_columns (P := Ref.platform) Examples.db1 Hr 1
           Examples.launch_row eq_refl).
Defined.

Section Equivalence.
Context {P : Platform}.

Lemma record_of_message msg code (db : DB) l :
  record_of (message_reply msg code, db, l) = None.
Proof. reflexivity. Qed.





End Equivalence.



(** * Further properties of the views *)

Section Reads.
Context {P : Platform}.

Lemma events_of_reply l code (db : DB) c :
  events_of (Reply (jsonify {[ "events" := JArr l ]}, code), db, c) = l.
Proof. reflexivity. Qed.

Lemma record_id_to_dict (e : Event) k :
  id e = Some k → record_id (JObj (to_dict e)) = Some (JInt k).
Proof. intros H. cbn. destruct (to_dict_lookup e) as (_ & _ & _ & _ & ->). by rewrite H. Qed.

Lemma record_id_row_json (e : Event) k :
  id e = Some k → record_id (row_json e) = Some (JInt k).
Proof. intros H. cbn. destruct (row_dict_lookup e) as (_ & _ & _ & _ & ->). by rewrite H. Qed.

Lemma elem_of_db_select_all (db : DB) row :
  row ∈ db_select_all db ↔ ∃ k, db_select k db = Some row.
Proof.
  unfold db_select_all, db_select. rewrite list_elem_of_fmap. split.
  - intros ([k e] & -> & He). apply elem_of_map_to_list in He.
    exists k. cbn. by rewrite He.
  - intros (k & Hk). destruct (rows db !! k) as [e|] eqn:He; [|done].
    injection Hk as <-. exists (k, e). split; [done|]. by apply elem_of_map_to_list.
Qed.

Lemma events_of_get_all v (db : DB) :
  events_of (run (view v GET_events) db) = listed v <$> db_select_all db.
Proof.
  destruct v; cbn [view].
  - rewrite orm_get_all_events_run, events_of_reply.
    by rewrite <- list_fmap_compose.
  - by rewrite raw_get_all_events_run, events_of_reply.
Qed.

(** X1: for an id that is not stored, the read and the update of either
    variant and the delete of the raw variant answer 404 with the message
    "Event not found"; they leave the stored state as it is and send no
    write to the database. *)
Theorem missing_id_is_not_found v (db : DB) k data :
  rows db !! k = None →
  (reply_of (run (view v (GET_event k)) db) = message_reply "Event not found" 404 ∧
   state_of (run (view v (GET_event k)) db) = db ∧
   List.filter is_write (calls_of (run (view v (GET_event k)) db)) = []) ∧
  (reply_of (run (view v (PUT_event k data)) db) = message_reply "Event not found" 404 ∧
   state_of (run (view v (PUT_event k data)) db) = db ∧
   List.filter is_write (calls_of (run (view v (PUT_event k data)) db)) = []) ∧
  (reply_of (run (Raw.delete_event k) db) = message_reply "Event not found" 404 ∧
   state_of (run (Raw.delete_event k) db) = db ∧
   List.filter is_write (calls_of (run (Raw.delete_event k) db)) = []).
Proof.
  intros H. destruct v; cbn [view];
    rewrite ?orm_get_single_event_run, ?orm_update_event_run, ?raw_get_single_event_run,
      ?raw_update_event_run, ?raw_delete_event_run;
    unfold db_select; rewrite H; cbn; done.
Qed.

(** X2: the two GET routes only read. Whatever is stored, a GET of either
    variant leaves the stored state as it is, sends exactly one SELECT and
    no write, and neither commits nor rolls back. *)
Theorem reads_change_nothing v (db : DB) k :
  (state_of (run (view v GET_events) db) = db ∧
   List.filter is_read (calls_of (run (view v GET_events) db)) = [Exec SELECT] ∧
   List.filter is_write (calls_of (run (view v GET_events) db)) = [] ∧
   List.filter is_commit (calls_of (run (view v GET_events) db)) = [] ∧
   List.filter is_rollback (calls_of (run (view v GET_events) db)) = []) ∧
  (state_of (run (view v (GET_event k)) db) = db ∧
   List.filter is_read (calls_of (run (view v (GET_event k)) db)) = [Exec SELECT] ∧
   List.filter is_write (calls_of (run (view v (GET_event k)) db)) = [] ∧
   List.filter is_commit (calls_of (run (view v (GET_event k)) db)) = [] ∧
   List.filter is_rollback (calls_of (run (view v (GET_event k)) db)) = []).
Proof.
  destruct v; cbn [view];
    rewrite ?orm_get_all_events_run, ?raw_get_all_events_run,
      ?orm_get_single_event_run, ?raw_get_single_event_run;
    by destruct (db_select k db).
Qed.

(** X3: GET /events answers 200 with one record per stored row: the list is
    as long as the table, it is empty on the empty table, the record of
    every stored row is in it, and every record in it is that of a stored
    row. The ORM sends [to_dict] of the row, the raw variant the row as the
    cursor returned it. *)
Theorem read_all_lists_every_row v (db : DB) :
  status_of (run (view v GET_events) db) = 200 ∧
  length (events_of (run (view v GET_events) db)) = size (rows db) ∧
  (rows db = ∅ → events_of (run (view v GET_events) db) = []) ∧
  (∀ j, j ∈ events_of (run (view v GET_events) db) ↔
        ∃ k row, db_select k db = Some row ∧ j = listed v row).
Proof.
  split; [destruct v; cbn [view];
          by rewrite ?orm_get_all_events_run, ?raw_get_all_events_run|].
  rewrite events_of_get_all. split; [|split].
  - unfold db_select_all. by rewrite !length_fmap, length_map_to_list.
  - intros H. unfold db_select_all. by rewrite H, map_to_list_empty.
  - intros j. rewrite list_elem_of_fmap. split.
    + intros (row & -> & Hrow). apply elem_of_db_select_all in Hrow as [k Hk].
      by exists k, row.
    + intros (k & row & Hk & ->). exists row. split; [done|].
      apply elem_of_db_select_all. by exists k.
Qed.

(** X4: after a DELETE that was answered 200, by either variant, the id is
    gone for both variants: its read answers 404 and no record of the list
    of all events carries it. Every other row is as it was. *)
Theorem deleted_event_is_gone v v' (db : DB) k :
  status_of (run (view v (DELETE_event k)) db) = 200 →
  reply_of (run (view v' (GET_event k)) (state_of (run (view v (DELETE_event k)) db))) =
    message_reply "Event not found" 404 ∧
  (∀ j, j ∈ events_of (run (view v' GET_events)
                         (state_of (run (view v (DELETE_event k)) db))) →
        record_id j ≠ Some (JInt k)) ∧
  (∀ k', k' ≠ k →
     rows (state_of (run (view v (DELETE_event k)) db)) !! k' = rows db !! k').
Proof.
  intros Hok.
  pose proof (deleted_is_missing v db k) as Hgone.
  assert (∀ k', k' ≠ k →
            rows (state_of (run (view v (DELETE_event k)) db)) !! k' = rows db !! k')
    as Hother.
  { intros k' Hk'. destruct v; cbn [view];
      rewrite ?orm_delete_event_run, ?raw_delete_event_run;
      unfold db_select, db_delete; destruct (rows db !! k) eqn:E; cbn; rewrite ?E; cbn;
      try done; by apply lookup_delete_ne. }
  set (db' := state_of (run (view v (DELETE_event k)) db)) in *.
  split; [|split; [|done]].
  - destruct v'; cbn [view];
      rewrite ?orm_get_single_event_run, ?raw_get_single_event_run;
      unfold db_select; by rewrite Hgone.
  - intros j. rewrite events_of_get_all, list_elem_of_fmap.
    intros (row & -> & Hrow). apply elem_of_db_select_all in Hrow as [k' Hk'].
    unfold db_select in Hk'. destruct (rows db' !! k') as [e|] eqn:He; [|done].
    injection Hk' as <-.
    assert (k' ≠ k) as Hne by (intros ->; congruence).
    destruct v'; cbn [listed];
      [rewrite (record_id_to_dict _ k') by done|rewrite (record_id_row_json _ k') by done];
      congruence.
Qed.

End Reads.

Lemma missing_id_is_not_found_witness :
  rows Examples.db0 !! 7 = None ∧
  reply_of (run (P := Ref.platform) (Raw.delete_event 7) Examples.db0) =
    message_reply "Event not found" 404.
Proof.
  split; [reflexivity|].
  apply (missing_id_is_not_found (P := Ref.platform) RawSql Examples.db0 7 None).
  reflexivity.
Defined.

Lemma deleted_event_is_gone_witness :
  status_of (run (P := Ref.platform) (view Orm (DELETE_event 1)) Examples.db1) = 200 ∧
  reply_of (run (P := Ref.platform) (view RawSql (GET_event 1))
              (state_of (run (P := Ref.platform) (view Orm (DELETE_event 1))
                           Examples.db1))) =
    message_reply "Event not found" 404.
Proof.
  split; [reflexivity|].
  apply (deleted_event_is_gone (P := Ref.platform) Orm RawSql Examples.db1 1).
  reflexivity.
Defined.

Section Replies.
Context {P : Platform}.

Ltac answer :=
  do 2 eexists; (split; [reflexivity|]); (split; [unfold statuses; set_solver|]);
  repeat split; intros Hcode; try discriminate Hcode;
  first [by eexists | left; by eexists | right; split; [done|]; by eexists | done].

(** X5: every request is answered: no exception leaves a view and no view
    ends without [return]. The reply is a JSON object with a status among
    200, 201, 400, 404 and 500. A 500 carries the single key [error] with
    the text of the exception; a 404 carries the message "Event not found";
    a 400 carries the single key [error], except the 400 of the ORM delete,
    which carries [message]. *)
Theorem every_request_is_answered v r (db : DB) :
  ∃ o code,
    reply_of (run (view v r) db) = Reply (JObj o, code) ∧
    code ∈ statuses ∧
    (code = 500 → ∃ e, o = {[ "error" := JStr ("An error occured: " +:+ str_exc e) ]}) ∧
    (code = 404 → o = {[ "message" := JStr "Event not found" ]}) ∧
    (code = 400 →
       (∃ msg, o = {[ "error" := JStr msg ]}) ∨
       (v = Orm ∧ ∃ k, r = DELETE_event k ∧ o = {[ "message" := JStr "event_to_delete" ]})).
Proof.
  destruct v, r as [data| |k|k data|k]; cbn [view].
  - rewrite orm_create_event_run.
    destruct (py_not data); [answer|].
    destruct (negb _); [answer|].
    destruct (dict_get _ _ _) as [|s]; [answer|].
    destruct (strptime s); [|answer]. cbv zeta.
    destruct (db_insert _ _) as [err|[n db']]; answer.
  - rewrite orm_get_all_events_run. answer.
  - rewrite orm_get_single_event_run. destruct (db_select k db); answer.
  - rewrite orm_update_event_run.
    destruct (db_select k db) as [old|]; [|answer].
    destruct (py_not data); [answer|].
    destruct (assign_date _ _) as [[]|e]; try answer.
    cbv zeta. case_bool_decide; [answer|].
    destruct (db_update _ _ _) as [err|[n db']]; answer.
  - rewrite orm_delete_event_run. destruct (db_select k db); answer.
  - rewrite raw_create_event_run.
    destruct (py_not data); [answer|].
    destruct (negb _); [answer|]. cbv zeta.
    destruct (bind_row _ _ _ _) as [err|e]; [answer|].
    destruct (db_insert _ _) as [err|[n db']]; answer.
  - rewrite raw_get_all_events_run. answer.
  - rewrite raw_get_single_event_run. destruct (db_select k db); answer.
  - rewrite raw_update_event_run.
    destruct (db_select k db) as [old|]; [|answer].
    destruct (py_not data); [answer|].
    destruct (event_date old); [|answer]. cbv zeta.
    destruct (bind_row _ _ _ _) as [err|e]; [answer|].
    destruct (db_update _ _ _) as [err|[n db']]; [answer|].
    destruct (n =? 0); answer.
  - rewrite raw_delete_event_run. destruct (rows db !! k); answer.
Qed.

Ltac unchanged :=
  cbn; intros H200 H201;
  first [by destruct H200 | by destruct H201 | by repeat split].

(** X6: a request that is not answered 200 or 201 changes nothing: the
    stored state is the one before, and the view has not committed. A
    request answered 500 has ended with a rollback. *)
Theorem failed_request_changes_nothing v r (db : DB) :
  status_of (run (view v r) db) ≠ 200 →
  status_of (run (view v r) db) ≠ 201 →
  state_of (run (view v r) db) = db ∧
  List.filter is_commit (calls_of (run (view v r) db)) = [] ∧
  (status_of (run (view v r) db) = 500 → last (calls_of (run (view v r) db)) = Some Rollback).
Proof.
  destruct v, r as [data| |k|k data|k]; cbn [view].
  - rewrite orm_create_event_run.
    destruct (py_not data); [unchanged|].
    destruct (negb _); [unchanged|].
    destruct (dict_get _ _ _) as [|s]; [unchanged|].
    destruct (strptime s); [|unchanged]. cbv zeta.
    destruct (db_insert _ _) as [err|[n db']]; unchanged.
  - rewrite orm_get_all_events_run. unchanged.
  - rewrite orm_get_single_event_run. destruct (db_select k db); unchanged.
  - rewrite orm_update_event_run.
    destruct (db_select k db) as [old|]; [|unchanged].
    destruct (py_not data); [unchanged|].
    destruct (assign_date _ _) as [[]|e]; try unchanged.
    cbv zeta. case_bool_decide; [unchanged|].
    destruct (db_update _ _ _) as [err|[n db']]; unchanged.
  - rewrite orm_delete_event_run. destruct (db_select k db); unchanged.
  - rewrite raw_create_event_run.
    destruct (py_not data); [unchanged|].
    destruct (negb _); [unchanged|]. cbv zeta.
    destruct (bind_row _ _ _ _) as [err|e]; [unchanged|].
    destruct (db_insert _ _) as [err|[n db']]; unchanged.
  - rewrite raw_get_all_events_run. unchanged.
  - rewrite raw_get_single_event_run. destruct (db_select k db); unchanged.
  - rewrite raw_update_event_run.
    destruct (db_select k db) as [old|]; [|unchanged].
    destruct (py_not data); [unchanged|].
    destruct (event_date old); [|unchanged]. cbv zeta.
    destruct (bind_row _ _ _ _) as [err|e]; [unchanged|].
    destruct (db_update _ _ _) as [err|[n db']]; [unchanged|].
    destruct (n =? 0); unchanged.
  - rewrite raw_delete_event_run. destruct (rows db !! k); unchanged.
Qed.

Ltac closed :=
  cbn; (split; [by intros ? ?|]);
  (split; [|by intros ?]);
  intros _; split;
  [intros Hlast;
   first [discriminate Hlast
         | split; [done|]; intros Heq; apply (f_equal message_of) in Heq;
           by vm_compute in Heq]
  |intros [H500 Hnc]; first [done | by destruct H500 | by destruct Hnc]].

(** X7: the cursor of the raw variant. A raw view that sends a statement
    has opened its cursor first; a view that makes no storage call at all
    answers 400. Of the views that make a call, those close the cursor
    last that answer neither 500 nor the no-change message of the update:
    the paths that end in the handler's rollback and the no-change return
    leave the cursor open. *)
Theorem raw_cursor_discipline r (db : DB) :
  (∀ s, Exec s ∈ calls_of (run (view RawSql r) db) →
        head (calls_of (run (view RawSql r) db)) = Some Cursor) ∧
  (calls_of (run (view RawSql r) db) ≠ [] →
     (last (calls_of (run (view RawSql r) db)) = Some Close ↔
      status_of (run (view RawSql r) db) ≠ 500 ∧
      reply_of (run (view RawSql r) db) ≠ message_reply no_change 200)) ∧
  (calls_of (run (view RawSql r) db) = [] → status_of (run (view RawSql r) db) = 400).
Proof.
  destruct r as [data| |k|k data|k]; cbn [view].
  - rewrite raw_create_event_run.
    destruct (py_not data);
      [cbn; split; [intros s Hs; by apply elem_of_nil in Hs|];
       split; [intros H; by destruct H|done]|].
    destruct (negb _);
      [cbn; split; [intros s Hs; by apply elem_of_nil in Hs|];
       split; [intros H; by destruct H|done]|]. cbv zeta.
    destruct (bind_row _ _ _ _) as [err|e]; [closed|].
    destruct (db_insert _ _) as [err|[n db']]; closed.
  - rewrite raw_get_all_events_run. closed.
  - rewrite raw_get_single_event_run. destruct (db_select k db); closed.
  - rewrite raw_update_event_run.
    destruct (db_select k db) as [old|]; [|closed].
    destruct (py_not data); [closed|].
    destruct (event_date old); [|closed]. cbv zeta.
    destruct (bind_row _ _ _ _) as [err|e]; [closed|].
    destruct (db_update _ _ _) as [err|[n db']]; [closed|].
    destruct (n =? 0); closed.
  - rewrite raw_delete_event_run. destruct (rows db !! k); closed.
Qed.

End Replies.

Lemma failed_request_changes_nothing_witness :
  state_of (run (P := Ref.platform) (view RawSql (PUT_event 1 None)) Examples.db1) =
    Examples.db1 ∧
  List.filter is_commit
    (calls_of (run (P := Ref.platform) (view RawSql (PUT_event 1 None)) Examples.db1)) = [].
Proof.
  destruct (failed_request_changes_nothing (P := Ref.platform) RawSql (PUT_event 1 None)
              Examples.db1) as (Hstate & Hcommit & _); [done|done|].
  by split.
Defined.

Lemma raw_cursor_discipline_witness :
  last (calls_of (run (P := Ref.platform) (view RawSql (GET_event 1)) Examples.db1)) =
    Some Close.
Proof.
  destruct (raw_cursor_discipline (P := Ref.platform) (GET_event 1) Examples.db1)
    as (_ & Hclose & _).
  apply Hclose; [done|]. split; [done|]. intros H. by injection H.
Defined.

Section Updates.
Context {P : Platform}.


Lemma bind_row_inv t ds ed l e :
  bind_row t ds ed l = inr e →
  title e = t ∧ description e = ds ∧ location e = l ∧
  id e = None ∧ bind_datetime ed = inr (event_date e).
Proof.
  unfold bind_row. destruct (bind_datetime ed) as [err|dd]; [done|].
  by intros [= <-].
Qed.


Lemma not_null_event_date e : not_null e = true → ∃ d, event_date e = Some d.
Proof.
  unfold not_null. destruct (title e); [done|].
  destruct (event_date e) as [d|]; [by exists d|done].
Qed.





End Updates.



Section Creates.
Context {P : Platform}.

Lemma db_insert_next e k (db db' : DB) :
  db_insert e db = inr (k, db') →
  k = next_id db ∧ next_id db' = next_id db + 1 ∧
  rows db' = <[next_id db := new_row e db]> (rows db).
Proof.
  unfold db_insert. destruct (check_row e); [done|]. by intros [= <- <-].
Qed.

(** No request lowers the auto-increment counter. *)
Lemma view_next_id v r (db : DB) :
  next_id db ≤ next_id (state_of (run (view v r) db)).
Proof.
  pose proof (view_state v r db) as Hv. cbv zeta in Hv.
  remember (state_of (run (view v r) db)) as st eqn:Hst. clear Hst.
  destruct Hv as [->|[(e & k & H)|[(k & e & n & H)|(k & ->)]]].
  - done.
  - apply db_insert_next in H as (_ & Hn & _). lia.
  - destruct (rows db !! k) as [stored|] eqn:Hs.
    + destruct (db_update_spec _ _ _ _ _ _ Hs H) as (_ & _ & _ & Hn & _). lia.
    + unfold db_update in H. rewrite Hs in H. by injection H as _ <-.
  - unfold db_delete. by destruct (rows db !! k).
Qed.

Lemma run_all_next_id l (db : DB) : next_id db ≤ next_id (run_all l db).
Proof.
  revert db. induction l as [|[v r] l IH]; intros db; cbn; [done|].
  etrans; [apply (view_next_id v r)|apply IH].
Qed.

Lemma keys_below_step v r (db : DB) :
  keys_below db → keys_below (state_of (run (view v r) db)).
Proof.
  intros Hb.
  pose proof (view_state v r db) as Hv. cbv zeta in Hv.
  remember (state_of (run (view v r) db)) as st eqn:Hst. clear Hst.
  destruct Hv as [->|[(e & k & H)|[(k & e & n & H)|(k & ->)]]].
  - done.
  - apply db_insert_next in H as (_ & Hn & Hrows).
    intros k' [e' He']. rewrite Hrows in He'. rewrite Hn.
    apply lookup_insert_Some in He' as [[<- _]|[_ He']]; [lia|].
    assert (k' < next_id db) by (apply Hb; by eexists). lia.
  - destruct (rows db !! k) as [stored|] eqn:Hs.
    + destruct (db_update_spec _ _ _ _ _ _ Hs H) as (_ & _ & Hother & Hn & _).
      intros k' [e' He']. rewrite Hn. destruct (decide (k' = k)) as [->|Hne].
      * apply Hb. by eexists.
      * rewrite Hother in He' by done. apply Hb. by eexists.
    + unfold db_update in H. rewrite Hs in H. by injection H as _ <-.
  - unfold db_delete. destruct (rows db !! k); [|done]. cbn.
    intros k' [e' He']. cbn in He'. apply lookup_delete_Some in He' as [_ He'].
    apply Hb. by eexists.
Qed.

Lemma reachable_keys_below (db : DB) : reachable db → keys_below db.
Proof.
  induction 1 as [now|v r db _ IH|now db _ IH].
  - intros k [e He]. cbn in He. by rewrite lookup_empty in He.
  - by apply keys_below_step.
  - done.
Qed.

Lemma event_id_of_created k record (db : DB) l :
  event_id_of (created_reply k record, db, l) = Some (JInt k).
Proof. reflexivity. Qed.
Lemma event_id_of_error msg code (db : DB) l :
  event_id_of (error_reply msg code, db, l) = None.
Proof. reflexivity. Qed.
Lemma event_id_of_internal_error_orm err (db : DB) l :
  event_id_of (Reply (ORM.internal_error err), db, l) = None.
Proof. reflexivity. Qed.
Lemma event_id_of_internal_error_raw err (db : DB) l :
  event_id_of (Reply (Raw.internal_error err), db, l) = None.
Proof. reflexivity. Qed.

(** What a create that was answered 201 did: one INSERT of the body's
    columns, under the counter. *)
Lemma create_201 v (db : DB) data :
  status_of (run (view v (POST_events data)) db) = 201 →
  ∃ e, title e = dict_get data "title" PNone ∧
       description e = dict_get data "description" PNone ∧
       location e = dict_get data "location" PNone ∧
       db_insert e db = inr (next_id db, state_of (run (view v (POST_events data)) db)) ∧
       event_id_of (run (view v (POST_events data)) db) = Some (JInt (next_id db)).
Proof.
  destruct v; cbn [view].
  - rewrite orm_create_event_run.
    destruct (py_not data); [done|].
    destruct (negb _); [done|].
    destruct (dict_get data "event_date" PNone) as [|s]; [done|].
    destruct (strptime s) as [d|]; [|done]. cbv zeta.
    destruct (db_insert _ db) as [err|[n db']] eqn:Hi; [done|].
    intros _. destruct (db_insert_next _ _ _ _ Hi) as (-> & _).
    eexists. by rewrite Hi.
  - rewrite raw_create_event_run.
    destruct (py_not data); [done|].
    destruct (negb _); [done|]. cbv zeta.
    destruct (bind_row _ _ _ _) as [err|e] eqn:Hbind; [done|].
    destruct (bind_row_inv _ _ _ _ _ Hbind) as (Ht & Hd & Hl & _).
    destruct (db_insert e db) as [err|[n db']] eqn:Hi; [done|].
    intros _. destruct (db_insert_next _ _ _ _ Hi) as (-> & _).
    by exists e.
Qed.

(** A create reply carries an event_id only when it is the 201. *)
Lemma event_id_is_201 v (db : DB) data j :
  event_id_of (run (view v (POST_events data)) db) = Some j →
  status_of (run (view v (POST_events data)) db) = 201.
Proof.
  destruct v; cbn [view].
  - rewrite orm_create_event_run.
    destruct (py_not data); [by rewrite event_id_of_error|].
    destruct (negb _); [by rewrite event_id_of_error|].
    destruct (dict_get data "event_date" PNone) as [|s];
      [by rewrite event_id_of_internal_error_orm|].
    destruct (strptime s) as [d|]; [|by rewrite event_id_of_error]. cbv zeta.
    by destruct (db_insert _ db) as [err|[n db']];
      [rewrite event_id_of_internal_error_orm|].
  - rewrite raw_create_event_run.
    destruct (py_not data); [by rewrite event_id_of_error|].
    destruct (negb _); [by rewrite event_id_of_error|]. cbv zeta.
    destruct (bind_row _ _ _ _) as [err|e];
      [by rewrite event_id_of_internal_error_raw|].
    by destruct (db_insert e db) as [err|[n db']];
      [rewrite event_id_of_internal_error_raw|].
Qed.


(** X11: event ids are never given twice. If a create is answered with the
    event_id k, then after any further requests to either variant, deletes
    included, a create that is answered with an event_id gets a larger one. *)
Theorem event_ids_are_never_reused v v' (db : DB) data data' l k k' :
  event_id_of (run (view v (POST_events data)) db) = Some (JInt k) →
  event_id_of (run (view v' (POST_events data'))
                 (run_all l (state_of (run (view v (POST_events data)) db)))) =
    Some (JInt k') →
  k < k'.
Proof.
  intros H1 H2.
  destruct (create_201 _ _ _ (event_id_is_201 _ _ _ _ H1)) as (e & _ & _ & _ & Hi & Hid).
  destruct (create_201 _ _ _ (event_id_is_201 _ _ _ _ H2)) as (e' & _ & _ & _ & _ & Hid').
  rewrite Hid in H1. rewrite Hid' in H2. injection H1 as <-. injection H2 as <-.
  apply db_insert_next in Hi as (_ & Hn & _).
  pose proof (run_all_next_id l (state_of (run (view v (POST_events data)) db))). lia.
Qed.



End Creates.


Lemma event_ids_are_never_reused_witness :
  event_id_of (run (P := Ref.platform) (view Orm (POST_events Examples.launch))
                 Examples.db0) = Some (JInt 1) ∧
  event_id_of
    (run (P := Ref.platform) (view RawSql (POST_events Examples.launch))
       (run_all [(Orm, DELETE_event 1)]
          (state_of (run (P := Ref.platform) (view Orm (POST_events Examples.launch))
                       Examples.db0)))) = Some (JInt 2) ∧
  (1 : Z) < 2.
Proof.
  split; [reflexivity|]. split; [reflexivity|].
  apply (event_ids_are_never_reused (P := Ref.platform) Orm RawSql Examples.db0
           Examples.launch Examples.launch [(Orm, DELETE_event 1)] 1 2); reflexivity.
Defined.


Section Idempotence.
Context {P : Platform}.

Lemma dict_get_idem data key v :
  dict_get data key (dict_get data key v) = dict_get data key v.
Proof. destruct data as [d|]; [|done]. cbn. by destruct (d !! key). Qed.

Lemma db_update_row k e n (db db' : DB) stored :
  rows db !! k = Some stored →
  db_update k e db = inr (n, db') →
  rows db' !! k = Some (set_columns e stored).
Proof.
  intros Hs. unfold db_update. rewrite Hs.
  destruct (check_row _); [done|].
  case_bool_decide as Heq; intros [= <- <-].
  - by rewrite Heq.
  - cbn. by rewrite lookup_insert_eq.
Qed.

(** Assigning the fields of a body to an instance that already holds them
    gives the same instance. *)
Lemma orm_merge_idem data old e :
  assign_date data
    (assign data "description" set_description (assign data "title" set_title old))
  = inr e →
  let e' := assign data "location" set_location e in
  ∃ e2,
    assign_date data
      (assign data "description" set_description (assign data "title" set_title e'))
    = inr e2 ∧
    assign data "location" set_location e2 = e'.
Proof.
  unfold assign_date, assign.
  destruct (py_in "title" data), (py_in "description" data),
    (py_in "event_date" data), (py_in "location" data);
    try (destruct (dict_get data "event_date" PNone) as [|s]; [done|];
         destruct (strptime s) as [d|]; [|done]);
    intros [= <-]; eexists; (split; [reflexivity|]); by destruct old.
Qed.

(** X13: repeating an update changes nothing. When a PUT on a stored event
    was answered 200, the same PUT on the state it left is answered 200
    again and leaves that state as it is. The ORM variant repeats its
    reply; the raw variant answers with the no-change message. For the raw
    variant the server must read the stored date's rendering as that date. *)
Theorem repeated_update_changes_nothing v (db : DB) k data old :
  db_select k db = Some old →
  reads_back old →
  status_of (run (view v (PUT_event k data)) db) = 200 →
  state_of (run (view v (PUT_event k data)) (state_of (run (view v (PUT_event k data)) db)))
    = state_of (run (view v (PUT_event k data)) db) ∧
  status_of (run (view v (PUT_event k data)) (state_of (run (view v (PUT_event k data)) db)))
    = 200 ∧
  match v with
  | Orm =>
      reply_of (run (view v (PUT_event k data))
                  (state_of (run (view v (PUT_event k data)) db)))
      = reply_of (run (view v (PUT_event k data)) db)
  | RawSql =>
      reply_of (run (view v (PUT_event k data))
                  (state_of (run (view v (PUT_event k data)) db)))
      = message_reply no_change 200
  end.
Proof.
  intros Hold Hback.
  destruct (db_select_stored _ _ _ Hold) as (stored & Hs & Hws).
  destruct v; cbn [view].
  - rewrite (orm_update_event_run k data db), Hold.
    destruct (py_not data) eqn:Hdata; [done|].
    destruct (assign_date _ _) as [[]|e] eqn:Hmerge; try done.
    pose proof (orm_merge_frame _ _ _ Hmerge) as (_ & _ & _ & _ & Hid & Hc).
    pose proof (orm_merge_idem _ _ _ Hmerge) as (e2 & Hmerge2 & He2).
    cbv zeta in *. set (e' := assign data "location" set_location e) in *.
    case_bool_decide as Heq.
    { intros _. cbn [state_of reply_of fst snd].
      rewrite (orm_update_event_run k data db), Hold, Hdata, Hmerge. cbv zeta.
      fold e'. by rewrite bool_decide_eq_true_2. }
    destruct (db_update k e' db) as [err|[n db1]] eqn:Hu; [done|].
    intros _. cbn [state_of reply_of fst snd].
    destruct (db_update_spec _ _ _ _ _ _ Hs Hu) as (_ & Hsel & _).
    rewrite (with_id_set_columns k e' stored) in Hsel;
      [|by rewrite Hid, Hws|by rewrite Hc, Hws].
    rewrite (orm_update_event_run k data db1), Hsel, Hdata, Hmerge2. cbv zeta.
    rewrite He2, bool_decide_eq_true_2 by done. done.
  - rewrite (raw_update_event_run k data db), Hold.
    destruct (py_not data) eqn:Hdata; [done|].
    destruct (event_date old) as [d0|] eqn:Hd0; [|done]. cbv zeta.
    destruct (bind_row _ _ _ _) as [err|e] eqn:Hbind; [done|].
    destruct (db_update k e db) as [err|[n db1]] eqn:Hu; [done|].
    intros _.
    assert (state_of (if n =? 0
                      then (message_reply no_change 200, db1,
                            [Cursor; Exec SELECT; Exec UPDATE; Commit])
                      else (updated_reply k
                              (echo (dict_get data "title" (title old))
                                 (dict_get data "description" (description old))
                                 (dict_get data "event_date" (PStr (strftime d0)))
                                 (dict_get data "location" (location old))),
                            db1, [Cursor; Exec SELECT; Exec UPDATE; Commit; Close]))
            = db1) as -> by (by destruct (n =? 0)).
    destruct (db_update_spec _ _ _ _ _ _ Hs Hu) as (Hcheck & Hsel & _).
    pose proof (db_update_row _ _ _ _ _ _ Hs Hu) as Hrow.
    destruct (bind_row_inv _ _ _ _ _ Hbind) as (Ht & Hd & Hl & Hnone & Hdate).
    pose proof (check_row_not_null _ Hcheck) as Hnn.
    apply not_null_event_date in Hnn as [d1 Hd1]. cbn in Hd1.
    rewrite Hd1 in Hdate.
    rewrite (raw_update_event_run k data db1), Hsel, Hdata.
    cbn [event_date with_id set_columns]. rewrite Hd1. cbv zeta.
    cbn [title description location with_id set_columns].
    rewrite Ht, Hd, Hl, !dict_get_idem.
    assert (dict_get data "event_date" (PStr (strftime d1)) =
            dict_get data "event_date" (PStr (strftime d0))) as ->.
    { destruct (py_in "event_date" data) eqn:Hin.
      - by apply dict_get_present.
      - rewrite dict_get_absent in Hdate by done. cbn in Hdate.
        rewrite (Hback d0 Hd0) in Hdate. by injection Hdate as <-. }
    rewrite Hbind. unfold db_update. rewrite Hrow.
    change (set_columns e (set_columns e stored)) with (set_columns e stored).
    rewrite Hcheck, bool_decide_eq_true_2 by done. done.
Qed.

End Idempotence.

Lemma repeated_update_changes_nothing_witness :
  reply_of (run (P := Ref.platform) (view RawSql (PUT_event 1 Examples.rename))
              (state_of (run (P := Ref.platform) (view RawSql (PUT_event 1 Examples.rename))
                           Examples.db1))) =
    message_reply no_change 200.
Proof.
  apply (repeated_update_changes_nothing (P := Ref.platform) RawSql Examples.db1 1
           Examples.rename Examples.launch_row);
    [reflexivity | intros d [= <-]; reflexivity | reflexivity].
Defined.

Section Composition.
Context {P : Platform}.

Lemma record_of_event r code (db : DB) l :
  record_of (Reply (jsonify {[ "event" := JObj r ]}, code), db, l) = Some r.
Proof. reflexivity. Qed.

Lemma listed_id v (row : Event) k : id row = Some k → record_id (listed v row) = Some (JInt k).
Proof.
  intros H. destruct v; [by apply record_id_to_dict | by apply record_id_row_json].
Qed.

Lemma length_events_of_get_all v (db : DB) :
  length (events_of (run (view v GET_events) db)) = size (rows db).
Proof.
  rewrite events_of_get_all. unfold db_select_all.
  by rewrite !length_fmap, length_map_to_list.
Qed.

(** X14: what a create stored can be read. On a stored state that the API
    has reached, after a create answered 201 by either variant, the read of
    the returned event_id is answered 200 by either variant, the list of
    all events has a record with that id, and the list is one longer than
    before. *)
Theorem created_event_is_listed v v' (db : DB) data :
  reachable db →
  status_of (run (view v (POST_events data)) db) = 201 →
  ∃ k,
    event_id_of (run (view v (POST_events data)) db) = Some (JInt k) ∧
    status_of (run (view v' (GET_event k)) (state_of (run (view v (POST_events data)) db)))
      = 200 ∧
    (∃ j, j ∈ events_of (run (view v' GET_events)
                           (state_of (run (view v (POST_events data)) db))) ∧
          record_id j = Some (JInt k)) ∧
    length (events_of (run (view v' GET_events)
                         (state_of (run (view v (POST_events data)) db)))) =
      S (length (events_of (run (view v' GET_events) db))).
Proof.
  intros Hreach H201.
  destruct (create_201 v db data H201) as (e & _ & _ & _ & Hi & Hid).
  apply db_insert_next in Hi as (_ & _ & Hrows).
  set (db' := state_of (run (view v (POST_events data)) db)) in *.
  assert (db_select (next_id db) db' = Some (with_id (next_id db) (new_row e db))) as Hsel.
  { unfold db_select. by rewrite Hrows, lookup_insert_eq. }
  assert (rows db !! next_id db = None) as Hfresh.
  { destruct (rows db !! next_id db) eqn:E; [|done].
    pose proof (reachable_keys_below db Hreach (next_id db)) as Hb.
    rewrite E in Hb. specialize (Hb (ltac:(by eexists))). lia. }
  exists (next_id db). split; [done|]. split; [|split].
  - destruct v'; cbn [view];
      by rewrite ?orm_get_single_event_run, ?raw_get_single_event_run, Hsel.
  - exists (listed v' (with_id (next_id db) (new_row e db))). split.
    + rewrite events_of_get_all. apply list_elem_of_fmap. eexists. split; [done|].
      apply elem_of_db_select_all. by exists (next_id db).
    + by apply listed_id.
  - rewrite !length_events_of_get_all, Hrows. by apply map_size_insert_None.
Qed.

(** X15: the two reads agree. When GET /events/<k> answers with a record,
    that record carries the id k and is one of the records of GET /events
    on the same stored state. *)
Theorem read_one_agrees_with_read_all v (db : DB) k record :
  record_of (run (view v (GET_event k)) db) = Some record →
  record !! "id" = Some (JInt k) ∧
  JObj record ∈ events_of (run (view v GET_events) db).
Proof.
  intros Hrec.
  assert (∃ row, db_select k db = Some row ∧ listed v row = JObj record) as (row & Hsel & Hl).
  { destruct v; cbn [view] in Hrec;
      rewrite ?orm_get_single_event_run, ?raw_get_single_event_run in Hrec;
      destruct (db_select k db) as [row|]; try (by rewrite record_of_message in Hrec);
      unfold row_json in Hrec; rewrite record_of_event in Hrec; injection Hrec as <-;
      by exists row. }
  destruct (db_select_stored _ _ _ Hsel) as (stored & _ & Hws).
  split.
  - pose proof (listed_id v row k (ltac:(by rewrite Hws))) as Hid.
    by rewrite Hl in Hid.
  - rewrite events_of_get_all, <- Hl. apply list_elem_of_fmap. exists row.
    split; [done|]. apply elem_of_db_select_all. by exists k.
Qed.

(** X16: a DELETE is answered 200 exactly when the id is stored. Whatever
    the answer, the table afterwards is the table before without that id,
    and the auto-increment counter is as it was. *)
Theorem delete_succeeds_iff_stored v (db : DB) k :
  (status_of (run (view v (DELETE_event k)) db) = 200 ↔ is_Some (rows db !! k)) ∧
  rows (state_of (run (view v (DELETE_event k)) db)) = delete k (rows db) ∧
  next_id (state_of (run (view v (DELETE_event k)) db)) = next_id db.
Proof.
  destruct v; cbn [view]; rewrite ?orm_delete_event_run, ?raw_delete_event_run;
    unfold db_select, db_delete; destruct (rows db !! k) as [e|] eqn:He; cbn;
    rewrite ?He; cbn; (split; [split; [by eauto|by intros []]|]); split; try done;
    symmetry; by apply delete_id.
Qed.

Ltac committed :=
  cbn; intros _ Hok; first [by destruct Hok | done].

(** X17: a POST, PUT or DELETE that is answered 200 or 201 has committed
    exactly once and has not rolled back. *)
Theorem successful_change_commits_once v r (db : DB) :
  mutating r = true →
  status_of (run (view v r) db) = 200 ∨ status_of (run (view v r) db) = 201 →
  List.filter is_commit (calls_of (run (view v r) db)) = [Commit] ∧
  List.filter is_rollback (calls_of (run (view v r) db)) = [].
Proof.
  destruct v, r as [data| |k|k data|k]; cbn [view]; try by intros [=].
  - rewrite orm_create_event_run.
    destruct (py_not data); [committed|].
    destruct (negb _); [committed|].
    destruct (dict_get _ _ _) as [|s]; [committed|].
    destruct (strptime s); [|committed]. cbv zeta.
    destruct (db_insert _ _) as [err|[n db']]; committed.
  - rewrite orm_update_event_run.
    destruct (db_select k db) as [old|]; [|committed].
    destruct (py_not data); [committed|].
    destruct (assign_date _ _) as [[]|e]; try committed.
    cbv zeta. case_bool_decide; [committed|].
    destruct (db_update _ _ _) as [err|[n db']]; committed.
  - rewrite orm_delete_event_run. destruct (db_select k db); committed.
  - rewrite raw_create_event_run.
    destruct (py_not data); [committed|].
    destruct (negb _); [committed|]. cbv zeta.
    destruct (bind_row _ _ _ _) as [err|e]; [committed|].
    destruct (db_insert _ _) as [err|[n db']]; committed.
  - rewrite raw_update_event_run.
    destruct (db_select k db) as [old|]; [|committed].
    destruct (py_not data); [committed|].
    destruct (event_date old); [|committed]. cbv zeta.
    destruct (bind_row _ _ _ _) as [err|e]; [committed|].
    destruct (db_update _ _ _) as [err|[n db']]; [committed|].
    destruct (n =? 0); committed.
  - rewrite raw_delete_event_run. destruct (rows db !! k); committed.
Qed.

End Composition.

Lemma created_event_is_listed_witness :
  reachable (P := Ref.platform) Examples.db0 ∧
  ∃ k,
    event_id_of (run (P := Ref.platform) (view Orm (POST_events Examples.launch))
                   Examples.db0) = Some (JInt k) ∧
    status_of (run (P := Ref.platform) (view RawSql (GET_event k))
                 (state_of (run (P := Ref.platform) (view Orm (POST_events Examples.launch))
                              Examples.db0))) = 200.
Proof.
  split; [apply reach_empty|].
  destruct (created_event_is_listed (P := Ref.platform) Orm RawSql Examples.db0
              Examples.launch (reach_empty Examples.nine) eq_refl)
    as (k & Hid & Hread & _).
  by exists k.
Defined.

Lemma read_one_agrees_with_read_all_witness :
  record_of (run (P := Ref.platform) (view Orm (GET_event 1)) Examples.db1) =
    Some (to_dict Examples.launch_row) ∧
  JObj (to_dict Examples.launch_row) ∈
    events_of (run (P := Ref.platform) (view Orm GET_events) Examples.db1).
Proof.
  split; [reflexivity|].
  apply (read_one_agrees_with_read_all (P := Ref.platform) Orm Examples.db1 1
           (to_dict Examples.launch_row)).
  reflexivity.
Defined.

Lemma successful_change_commits_once_witness :
  mutating (DELETE_event 1) = true ∧
  status_of (run (P := Ref.platform) (view RawSql (DELETE_event 1)) Examples.db1) = 200 ∧
  List.filter is_commit
    (calls_of (run (P := Ref.platform) (view RawSql (DELETE_event 1)) Examples.db1)) =
    [Commit].
Proof.
  split; [reflexivity|]. split; [reflexivity|].
  apply (successful_change_commits_once (P := Ref.platform) RawSql (DELETE_event 1)
           Examples.db1); [reflexivity|left; reflexivity].
Defined.
